(** * torch.distributed.elastic_launch: the launcher glue, embedded and verified

    The development follows [torch/distributed/elastic_launch.py]:

    - [Py]: the Python builtins the launcher leans on ([int] on a [str],
      [str.split] with a one-character separator, [str] on an [int]);
    - [Args], [LaunchConfig]: the argparse namespace and the launch
      configuration, as records;
    - [parse_min_max_nnodes], [determine_local_world_size],
      [get_rdzv_endpoint], [config_from_args], [run]: the functions of the
      file, written in a small state-and-exception monad over the process
      (its environment variables and the calls it makes, in order);
    - [RankAssigner], [RestartController]: the two components of the design
      document whose code lives outside this file, modelled from the
      document. *)

From Stdlib Require Import ZArith Ascii String DecimalString DecimalPos DecimalZ Lia.
From stdpp Require Import base list strings gmap.

Local Open Scope string_scope.
Local Open Scope list_scope.
Local Open Scope Z_scope.

(** ** Python builtins *)

Module Py.

(** A Python [str] is a sequence of code points; here it is held as the
    bytes of its UTF-8 encoding, which is what a string literal of this
    file holds. ASCII characters are the bytes below 128, and no byte of
    the encoding of another character is below 128, so comparing with an
    ASCII string, counting an ASCII character and splitting at one are the
    same on the bytes as on the code points. *)

(** A code point of the range [low] to 0x10FFFF that is no surrogate. *)
Definition scalar (low cp : N) : bool :=
  ((low <=? cp) && (cp <=? 1114111) && negb ((55296 <=? cp) && (cp <=? 57343)))%N.

(** The code points of a UTF-8 byte sequence, [None] when the bytes are
    the encoding of no [str]. [pending] continuation bytes are still to
    come for the code point gathered in [acc], which the length of its
    encoding requires to be [low] at least. *)
Fixpoint utf8 (pending : nat) (low acc : N) (l : list ascii) : option (list N) :=
  match l with
  | [] => match pending with O => Some [] | S _ => None end
  | c :: l' =>
      let b := N_of_ascii c in
      match pending with
      | O =>
          if (b <? 128)%N then cons b <$> utf8 0 0 0 l'
          else if ((194 <=? b) && (b <? 224))%N then utf8 1 128 (b - 192) l'
          else if ((224 <=? b) && (b <? 240))%N then utf8 2 2048 (b - 224) l'
          else if ((240 <=? b) && (b <? 245))%N then utf8 3 65536 (b - 240) l'
          else None
      | S k =>
          if ((128 <=? b) && (b <? 192))%N then
            let acc := (64 * acc + (b - 128))%N in
            match k with
            | O => if scalar low acc then cons acc <$> utf8 0 0 0 l' else None
            | S _ => utf8 k low acc l'
            end
          else None
      end
  end.

Definition code_points (s : string) : option (list N) :=
  utf8 0 0 0 (list_ascii_of_string s).

(** The blanks [int()] skips around an ASCII literal (C's [isspace]): tab,
    line feed, vertical tab, form feed, carriage return and the space.
    The separators 0x1c-0x1f are blanks for [str.isspace] but not here. *)
Definition isspace (c : ascii) : bool :=
  let n := nat_of_ascii c in
  ((9 <=? n) && (n <=? 13) || (n =? 32))%nat.

(** The blanks of Unicode above ASCII: U+0085, U+00A0, U+1680,
    U+2000-U+200A, U+2028, U+2029, U+202F, U+205F, U+3000. *)
Definition unicode_isspace (cp : N) : bool :=
  ((cp =? 133) || (cp =? 160) || (cp =? 5760)
   || ((8192 <=? cp) && (cp <=? 8202))
   || (cp =? 8232) || (cp =? 8233) || (cp =? 8239) || (cp =? 8287)
   || (cp =? 12288))%N.

(** The decimal digits of Unicode above ASCII (category Nd of Unicode
    14.0, as CPython 3.11 has it) come in runs of ten, zero to nine; these
    are the zeros. *)
Definition decimal_zeros : list N :=
  [1632; 1776; 1984; 2406; 2534; 2662; 2790; 2918; 3046; 3174; 3302; 3430;
   3558; 3664; 3792; 3872; 4160; 4240; 6112; 6160; 6470; 6608; 6784; 6800;
   6992; 7088; 7232; 7248; 42528; 43216; 43264; 43472; 43504; 43600; 44016;
   65296; 66720; 68912; 69734; 69872; 69942; 70096; 70384; 70736; 70864;
   71248; 71360; 71472; 71904; 72016; 72784; 73040; 73120; 92768; 92864;
   93008; 120782; 120792; 120802; 120812; 120822; 123200; 123632; 125264;
   130032]%N.

Definition unicode_decimal (cp : N) : option N :=
  (fun zero => (cp - zero)%N)
  <$> List.find (fun zero => ((zero <=? cp) && (cp <? zero + 10))%N) decimal_zeros.

(** What [int()] makes of a code point before it reads the literal: an
    ASCII character is kept, a blank of Unicode becomes a space, a decimal
    digit of Unicode the ASCII digit of its value, and anything else a
    question mark, which no literal has. *)
Definition to_ascii (cp : N) : ascii :=
  if (cp <? 127)%N then ascii_of_N cp
  else if unicode_isspace cp then " "%char
  else
    match unicode_decimal cp with
    | Some d => ascii_of_N (48 + d)
    | None => "?"%char
    end.

Definition digit (c : ascii) : option Z :=
  let n := nat_of_ascii c in
  if ((48 <=? n) && (n <=? 57))%nat then Some (Z.of_nat (n - 48)) else None.

Definition is_underscore (c : ascii) : bool := (nat_of_ascii c =? 95)%nat.

Fixpoint lstrip (l : list ascii) : list ascii :=
  match l with
  | c :: l' => if isspace c then lstrip l' else l
  | [] => []
  end.

Definition strip (l : list ascii) : list ascii :=
  rev (lstrip (rev (lstrip l))).

(** The digits of a decimal literal, most significant first. A single
    underscore may separate two digits; [after_us] records that the
    character just read was one. *)
Fixpoint digits (acc : Z) (after_us : bool) (l : list ascii) : option Z :=
  match l with
  | [] => if after_us then None else Some acc
  | c :: l' =>
      if is_underscore c then
        if after_us then None else digits acc true l'
      else
        match digit c with
        | Some d => digits (10 * acc + d) false l'
        | None => None
        end
  end.

(** An unsigned literal: at least one digit, no leading underscore. *)
Definition literal (l : list ascii) : option Z :=
  match l with
  | [] => None
  | c :: _ => if is_underscore c then None else digits 0 false l
  end.

(** [int(s)] for a [str] in base ten: [Some n] is the value returned,
    [None] stands for the [ValueError] it raises. The code points are
    brought to ASCII by [to_ascii], blanks around the literal are dropped,
    one sign may precede the digits. (The limit on the number of digits
    that later versions of CPython put on [int] is not modelled.) *)
Definition int (s : string) : option Z :=
  match code_points s with
  | None => None
  | Some cps =>
      match strip (to_ascii <$> cps) with
      | [] => None
      | c :: l =>
          if (nat_of_ascii c =? 45)%nat then Z.opp <$> literal l
          else if (nat_of_ascii c =? 43)%nat then literal l
          else literal (c :: l)
      end
  end.

(** [s.split(sep)] for a separator of one character. *)
Fixpoint split (sep : ascii) (s : string) : list string :=
  match s with
  | EmptyString => [EmptyString]
  | String c s' =>
      if Ascii.eqb c sep then EmptyString :: split sep s'
      else
        match split sep s' with
        | w :: ws => String c w :: ws
        | [] => [String c EmptyString]
        end
  end.

(** Number of occurrences of a character, [s.count(c)]. *)
Fixpoint count (c : ascii) (s : string) : nat :=
  match s with
  | EmptyString => 0%nat
  | String c' s' => ((if Ascii.eqb c' c then 1 else 0) + count c s')%nat
  end.

(** [str(n)] for an [int]: decimal digits, a minus sign when negative. *)
Definition str (n : Z) : string := NilZero.string_of_int (Z.to_int n).

End Py.

(** ** Exceptions, the process, and the monad the launcher runs in *)

(** The exceptions the code of the file raises itself, by class (messages
    are left out), and [LibraryError] for whatever a function imported
    from another module raises; [E] is the type of those. [TypeError] is
    what the comparison of [None] with an integer raises. *)
Inductive exn (E : Type) : Type :=
| AssertionError
| ValueError
| RuntimeError
| IndexError
| TypeError
| LibraryError (e : E).
Arguments AssertionError {E}.
Arguments ValueError {E}.
Arguments RuntimeError {E}.
Arguments IndexError {E}.
Arguments TypeError {E}.
Arguments LibraryError {E} e.

Inductive outcome (E A : Type) : Type :=
| Returns (a : A)
| Raises (e : exn E).
Arguments Returns {E A} a.
Arguments Raises {E A} e.

(** What the process does that can be seen from outside, in order: the
    records it logs or prints, the embedded etcd server it starts and
    stops, the launch it hands over to. *)
Inductive event : Type :=
| logging_info_using (nproc_per_node : string)
| log_info_setting (nproc_per_node : string) (num_proc cpu_count : option Z)
    (device_type : string)
| print_omp_num_threads (omp_num_threads : Z)
| log_warning_deprecated
| etcd_server_start
| etcd_server_stop
| log_info_rendezvous (rdzv_backend rdzv_endpoint rdzv_id : string)
| elastic_launch_call (entrypoint : string) (argv : list string).

(** The part of the process the launcher reads and writes: [os.environ]
    and the trace of events so far. *)
Record process : Type := Process {
  environ : gmap string string;
  trace : list event
}.

(** What the machine answers while one call of the launcher runs:
    [os.cpu_count()], which is an [int] or, when the number of CPUs cannot
    be determined, [None]; [torch.cuda.is_available()];
    [torch.cuda.device_count()]; [sys.executable]; and the two values
    [run] draws in standalone mode, the endpoint of the embedded server
    and [str(uuid.uuid4())]. *)
Record host : Type := Host {
  cpu_count : option Z;
  cuda_is_available : bool;
  cuda_device_count : Z;
  sys_executable : string;
  etcd_endpoint : string;
  uuid4 : string
}.

Definition M (E A : Type) : Type := process -> outcome E A * process.

Definition ret {E A} (a : A) : M E A := fun p => (Returns a, p).

Definition bind {E A B} (m : M E A) (k : A -> M E B) : M E B :=
  fun p =>
    match m p with
    | (Returns a, p') => k a p'
    | (Raises e, p') => (Raises e, p')
    end.

Definition raise {E A} (e : exn E) : M E A := fun p => (Raises e, p).

(** A value or an exception computed without touching the process. *)
Definition lift {E A} (o : outcome E A) : M E A := fun p => (o, p).

(** A call into another module: its exception, if any, passes through. *)
Definition call {E A} (r : E + A) : M E A :=
  fun p => match r with inl e => (Raises (LibraryError e), p) | inr a => (Returns a, p) end.

Definition emit {E} (ev : event) : M E unit :=
  fun p => (Returns tt, Process (environ p) (trace p ++ [ev])).

Definition in_environ {E} (k : string) : M E bool :=
  fun p => (Returns (bool_decide (is_Some (environ p !! k))), p).

Definition setenv {E} (k v : string) : M E unit :=
  fun p => (Returns tt, Process (<[k := v]> (environ p)) (trace p)).

(** The [assert] statement. *)
Definition assert {E} (b : bool) : M E unit :=
  if b then ret tt else raise AssertionError.

(** [try: body finally: cleanup]: the cleanup runs on both exits, and the
    exit of the body is kept unless the cleanup raises itself. *)
Definition try_finally {E A} (body : M E A) (cleanup : M E unit) : M E A :=
  fun p =>
    let '(o, p') := body p in
    match cleanup p' with
    | (Returns _, p'') => (o, p'')
    | (Raises e, p'') => (Raises e, p'')
    end.

Declare Scope launcher_scope.
Delimit Scope launcher_scope with launcher.
Notation "'let*' x := m 'in' k" := (bind m (fun x => k))
  (at level 10, x pattern, m at level 100, k at level 200) : launcher_scope.
Notation "m ;; k" := (bind m (fun _ => k))
  (at level 100, k at level 200, right associativity) : launcher_scope.
Local Open Scope launcher_scope.

(** ** The argparse namespace and the launch configuration *)

Module Args.
(** The namespace [parse_args] returns; [float] is the type of Python
    floats, which the launcher only passes on. *)
Record t {float : Type} : Type := mk {
  nnodes : string;
  nproc_per_node : string;
  rdzv_backend : string;
  rdzv_endpoint : string;
  rdzv_id : string;
  rdzv_conf : string;
  standalone : bool;
  max_restarts : Z;
  monitor_interval : float;
  start_method : string;
  role : string;
  module : bool;
  no_python : bool;
  log_dir : option string;
  redirects : string;
  tee : string;
  node_rank : Z;
  master_addr : string;
  master_port : Z;
  training_script : string;
  training_script_args : list string;
  use_env : bool
}.
Arguments t : clear implicits.
Arguments mk {float}.
End Args.

(** A value of the rendezvous configuration dictionary: the strings
    [_parse_rendezvous_config] reads from [--rdzv_conf], or the integer
    node rank stored under the key rank. *)
Inductive conf_value : Type :=
| ConfStr (s : string)
| ConfInt (n : Z).

Module LaunchConfig.
(** The keyword arguments [config_from_args] passes to [LaunchConfig];
    [std] is the type of the values [Std.from_str] returns.
    [nproc_per_node] is what [determine_local_world_size] returned, an
    [int] or [None]. *)
Record t {float std : Type} : Type := mk {
  min_nodes : Z;
  max_nodes : Z;
  nproc_per_node : option Z;
  run_id : string;
  role : string;
  rdzv_endpoint : string;
  rdzv_backend : string;
  rdzv_configs : gmap string conf_value;
  max_restarts : Z;
  monitor_interval : float;
  start_method : string;
  redirects : std;
  tee : std
}.
Arguments t : clear implicits.
Arguments mk {float std}.
End LaunchConfig.

(** ** The functions of elastic_launch.py *)

Section Launcher.

(** [E]: exceptions of the imported functions; [float]: Python floats;
    [std]: the values of [Std.from_str]. *)
Context {E float std : Type}.

(** Imported from other modules of the package, and taken as given:
    [torch.distributed.elastic.rendezvous.utils._parse_rendezvous_config],
    [torch.distributed.elastic.multiprocessing.Std.from_str],
    [torch.distributed.elastic.utils.macros.local_rank], and
    [torch.distributed.launcher.api.elastic_launch], of which only the
    exit matters here ([None]: it returns, [Some e]: it raises [e]). *)
Variable _parse_rendezvous_config : string -> E + gmap string string.
Variable Std_from_str : string -> E + std.
Variable macros_local_rank : string.
Variable elastic_launch : LaunchConfig.t float std -> string -> list string -> option E.

Variable h : host.

Abbreviation args := (Args.t float).
Abbreviation config := (LaunchConfig.t float std).

(** [int(s)], with its [ValueError]. *)
Definition to_int (s : string) : outcome E Z :=
  match Py.int s with
  | Some n => Returns n
  | None => Raises ValueError
  end.

Definition parse_min_max_nnodes (nnodes : string) : outcome E (Z * Z) :=
  let arr := Py.split ":" nnodes in
  match arr with
  | [a0] =>
      match to_int a0 with
      | Returns n => Returns (n, n)
      | Raises e => Raises e
      end
  | [a0; a1] =>
      match to_int a0 with
      | Returns min_nodes =>
          match to_int a1 with
          | Returns max_nodes => Returns (min_nodes, max_nodes)
          | Raises e => Raises e
          end
      | Raises e => Raises e
      end
  | _ => Raises RuntimeError
  end.

(** The value returned is a Python [int], [Some n], or [None], which is
    what [os.cpu_count()] may give. *)
Definition determine_local_world_size (nproc_per_node : string) : M E (option Z) :=
  emit (logging_info_using nproc_per_node);;
  match Py.int nproc_per_node with
  | Some n => ret (Some n)
  | None =>
      let* (num_proc, device_type) :=
        (if String.eqb nproc_per_node "cpu" then
           ret (cpu_count h, "cpu")
         else if String.eqb nproc_per_node "gpu" then
           if negb (cuda_is_available h) then raise ValueError
           else ret (Some (cuda_device_count h), "gpu")
         else if String.eqb nproc_per_node "auto" then
           if cuda_is_available h then ret (Some (cuda_device_count h), "gpu")
           else ret (cpu_count h, "cpu")
         else raise ValueError) in
      emit (log_info_setting nproc_per_node num_proc (cpu_count h) device_type);;
      ret num_proc
  end.

Definition get_rdzv_endpoint (a : args) : string :=
  if String.eqb (Args.rdzv_backend a) "static" then
    Args.master_addr a +:+ ":" +:+ Py.str (Args.master_port a)
  else Args.rdzv_endpoint a.

Definition config_from_args (a : args) : M E (config * list string) :=
  let* (min_nodes, max_nodes) := lift (parse_min_max_nnodes (Args.nnodes a)) in
  assert ((0 <? min_nodes) && (min_nodes <=? max_nodes));;
  assert (Args.max_restarts a >=? 0);;
  let* nproc_per_node := determine_local_world_size (Args.nproc_per_node a) in
  let* present := in_environ "OMP_NUM_THREADS" in
  let* more_than_one :=
    (if negb present then
       match nproc_per_node with
       | Some n => ret (n >? 1)
       | None => raise TypeError
       end
     else ret false) in
  (if more_than_one then
     let omp_num_threads := 1 in
     emit (print_omp_num_threads omp_num_threads);;
     setenv "OMP_NUM_THREADS" (Py.str omp_num_threads)
   else ret tt);;
  let* parsed := call (_parse_rendezvous_config (Args.rdzv_conf a)) in
  let rdzv_configs : gmap string conf_value := ConfStr <$> parsed in
  let rdzv_configs :=
    if String.eqb (Args.rdzv_backend a) "static" then
      <["rank" := ConfInt (Args.node_rank a)]> rdzv_configs
    else rdzv_configs in
  let rdzv_endpoint := get_rdzv_endpoint a in
  let* redirects := call (Std_from_str (Args.redirects a)) in
  let* tee := call (Std_from_str (Args.tee a)) in
  let config :=
    LaunchConfig.mk min_nodes max_nodes nproc_per_node (Args.rdzv_id a)
      (Args.role a) rdzv_endpoint (Args.rdzv_backend a) rdzv_configs
      (Args.max_restarts a) (Args.monitor_interval a) (Args.start_method a)
      redirects tee in
  let with_python := negb (Args.no_python a) in
  let* cmd :=
    (if with_python then
       let cmd := [sys_executable h; "-u"] in
       ret (if Args.module a then cmd ++ ["-m"] else cmd)
     else
       if negb (Args.use_env a) then raise ValueError
       else if Args.module a then raise ValueError
       else ret []) in
  let cmd := cmd ++ [Args.training_script a] in
  let* cmd :=
    (if negb (Args.use_env a) then
       emit log_warning_deprecated;;
       ret (cmd ++ ["--local_rank=" +:+ macros_local_rank])
     else ret cmd) in
  let cmd := cmd ++ Args.training_script_args a in
  ret (config, cmd).

(** [args] is one object that [run] writes to; the namespace as [run]
    leaves it is returned next to the exit. *)
Definition run (a : args) (p : process) : outcome E unit * args * process :=
  let '(a, p) :=
    if Args.standalone a then
      let p := Process (environ p) (trace p ++ [etcd_server_start]) in
      let rdzv_backend := "etcd" in
      let rdzv_endpoint := etcd_endpoint h in
      let rdzv_id := uuid4 h in
      let a :=
        Args.mk (Args.nnodes a) (Args.nproc_per_node a) rdzv_backend rdzv_endpoint
          rdzv_id (Args.rdzv_conf a) (Args.standalone a) (Args.max_restarts a)
          (Args.monitor_interval a) (Args.start_method a) (Args.role a)
          (Args.module a) (Args.no_python a) (Args.log_dir a) (Args.redirects a)
          (Args.tee a) (Args.node_rank a) (Args.master_addr a) (Args.master_port a)
          (Args.training_script a) (Args.training_script_args a) (Args.use_env a) in
      (a, Process (environ p)
            (trace p ++ [log_info_rendezvous rdzv_backend rdzv_endpoint rdzv_id]))
    else (a, p) in
  match config_from_args a p with
  | (Raises e, p) => (Raises e, a, p)
  | (Returns (config, cmd), p) =>
      let body : M E unit :=
        match cmd with
        | entrypoint :: argv =>
            emit (elastic_launch_call entrypoint argv);;
            match elastic_launch config entrypoint argv with
            | None => ret tt
            | Some e => raise (LibraryError e)
            end
        | [] => raise IndexError
        end in
      let cleanup : M E unit :=
        if Args.standalone a then emit etcd_server_stop else ret tt in
      let '(o, p) := try_finally body cleanup p in
      (o, a, p)
  end.

End Launcher.

(** ** Vocabulary for the statements about config_from_args *)

Section Vocabulary.

Context {float : Type}.
Variable macros_local_rank : string.
Variable h : host.

(** The bounds and the restart budget the two [assert]s demand. *)
Definition bounds_ok (min_nodes max_nodes max_restarts : Z) : Prop :=
  0 < min_nodes <= max_nodes /\ max_restarts >= 0.

(** The process after the OMP_NUM_THREADS step, entered from [p] with the
    worker count [nproc_per_node]; [None] when the step raises
    [TypeError], the variable being absent and the count [None]. *)
Definition after_omp (nproc_per_node : option Z) (p : process) : option process :=
  if bool_decide (is_Some (environ p !! "OMP_NUM_THREADS")) then Some p
  else
    match nproc_per_node with
    | None => None
    | Some n =>
        Some (if n >? 1
              then Process (<["OMP_NUM_THREADS" := "1"]> (environ p))
                           (trace p ++ [print_omp_num_threads 1])
              else p)
    end.

(** The command line the last part of [config_from_args] builds when the
    flags allow one. *)
Definition command (a : Args.t float) : list string :=
  (if Args.no_python a then []
   else [sys_executable h; "-u"] ++ (if Args.module a then ["-m"] else []))
  ++ [Args.training_script a]
  ++ (if Args.use_env a then [] else ["--local_rank=" +:+ macros_local_rank])
  ++ Args.training_script_args a.

(** Events of the embedded etcd server; a list of events is quiet when
    it has none of them. *)
Definition server_event (ev : event) : bool :=
  match ev with
  | etcd_server_start | etcd_server_stop => true
  | _ => false
  end.

Definition quiet (evs : list event) : bool :=
  forallb (fun ev => negb (server_event ev)) evs.

(** Flags for which no command line is built. *)
Definition flags_rejected (a : Args.t float) : bool :=
  Args.no_python a && (negb (Args.use_env a) || Args.module a).

End Vocabulary.

(** ** The core the launcher hands over to *)

Local Open Scope nat_scope.

Module RankAssigner.

(** A member of the rendezvous round: where it is reached and the role
    its workers play. *)
Record node : Type := Node {
  address : string;
  node_role : string
}.

Record WorkerSpec : Type := {
  local_rank : nat;
  global_rank : nat;
  role_rank : nat;
  role_world_size : nat;
  role : string
}.

Record assignment : Type := {
  group_rank : nat;
  world_size : nat;
  workers : list WorkerSpec
}.

(** Nodes of the list that carry the role [r], in the order of the list. *)
Definition with_role (r : string) (l : list node) : list node :=
  filter (fun n => node_role n = r) l.

(** Modelled from the spec: the RankAssigner component (its code is the
    elastic agent's, outside this file). Section 4.3: for the node at
    position [p] of [ordered_node_list] and [L] workers per node,
    [group_rank = p], [world_size = len(ordered_node_list) * L], and the
    local worker [i] in [0, L) gets [global_rank = p*L + i] and
    [local_rank = i]; the role-scoped ranks are the same computation over
    the nodes that share this node's role, in the same order. A position
    outside the list has no assignment. *)
Definition assign (ordered_node_list : list node) (p L : nat) : option assignment :=
  match ordered_node_list !! p with
  | None => None
  | Some me =>
      let r := node_role me in
      let q := length (with_role r (take p ordered_node_list)) in
      Some {|
        group_rank := p;
        world_size := length ordered_node_list * L;
        workers :=
          (fun i => {|
             local_rank := i;
             global_rank := p * L + i;
             role_rank := q * L + i;
             role_world_size := length (with_role r ordered_node_list) * L;
             role := r
           |}) <$> seq 0 L
      |}
  end.

(** The global ranks handed out on the node at position [p]. *)
Definition global_ranks_at (ordered_node_list : list node) (L p : nat) : list nat :=
  match assign ordered_node_list p L with
  | Some a => global_rank <$> workers a
  | None => []
  end.

(** The global ranks of the whole worker group, node after node. *)
Definition all_global_ranks (ordered_node_list : list node) (L : nat) : list nat :=
  flat_map (global_ranks_at ordered_node_list L) (seq 0 (length ordered_node_list)).

End RankAssigner.

Module RestartController.

(** The states of section 4.5. FAILED_RETRY is the name of the edge from
    RUNNING back to NEGOTIATING, not a state the controller rests in. *)
Inductive state : Type :=
| INIT
| NEGOTIATING
| RUNNING
| SUCCEEDED
| FAILED_FATAL.

#[global] Instance state_eq_dec : EqDecision state.
Proof. solve_decision. Defined.

Record RestartState : Type := {
  restarts_used : nat;
  max_restarts : nat
}.

Record controller : Type := {
  phase : state;
  restart_state : RestartState
}.

(** What the controller learns between two transitions: the job
    configuration was read; the negotiator completed a round, timed out
    (section 4.2), or gave up on a backend that stayed unavailable
    through its bounded retries (the two failures of [join], sections 4.1
    and 7); the poll of the supervisor and of the negotiator found the
    group still running, all workers exited with code 0, some worker
    failed, or the round was superseded. *)
Inductive observation : Type :=
| ConfigRead
| RendezvousComplete
| RendezvousTimeout
| BackendUnavailable
| StillRunning
| AllExitedZero
| AnyFailed
| Superseded.

(** Modelled from the spec: the INIT state of the RestartController, which
    reads the job configuration with [restarts_used = 0]. *)
Definition init (max_restarts : nat) : controller :=
  {| phase := INIT;
     restart_state := {| restarts_used := 0; max_restarts := max_restarts |} |}.

(** Modelled from the spec: the way out of RUNNING on a worker failure or
    a superseded round. The current worker group is torn down and
    [restarts_used] incremented; if [restarts_used > max_restarts] the
    controller goes to FAILED_FATAL, else to NEGOTIATING. *)
Definition teardown (rs : RestartState) : controller :=
  let used := S (restarts_used rs) in
  {| phase := if max_restarts rs <? used then FAILED_FATAL else NEGOTIATING;
     restart_state := {| restarts_used := used; max_restarts := max_restarts rs |} |}.

(** Modelled from the spec: the RestartController component (its code is
    the elastic agent's, outside this file). Section 4.5: INIT goes to
    NEGOTIATING once the job configuration is read; NEGOTIATING goes to
    RUNNING on a completed round and to FAILED_FATAL on Timeout; RUNNING
    goes to SUCCEEDED when all workers exit with code 0, and through
    [teardown] on a worker failure or a superseded round. Section 7: a
    backend that is unavailable is retried inside the negotiator and,
    the bounded attempts used up, escalated to fatal; the controller
    is then negotiating, and goes to FAILED_FATAL as on Timeout, no
    restart being counted. An observation that does not belong to the
    current state changes nothing; SUCCEEDED and FAILED_FATAL are
    terminal. *)
Definition step (c : controller) (o : observation) : controller :=
  let rs := restart_state c in
  match phase c, o with
  | INIT, ConfigRead => {| phase := NEGOTIATING; restart_state := rs |}
  | NEGOTIATING, RendezvousComplete => {| phase := RUNNING; restart_state := rs |}
  | NEGOTIATING, RendezvousTimeout => {| phase := FAILED_FATAL; restart_state := rs |}
  | NEGOTIATING, BackendUnavailable => {| phase := FAILED_FATAL; restart_state := rs |}
  | RUNNING, AllExitedZero => {| phase := SUCCEEDED; restart_state := rs |}
  | RUNNING, AnyFailed => teardown rs
  | RUNNING, Superseded => teardown rs
  | _, _ => c
  end.

Definition run (c : controller) (obs : list observation) : controller :=
  fold_left step obs c.

(** The observation makes the controller tear the group down. *)
Definition tears_down (c : controller) (o : observation) : bool :=
  match phase c, o with
  | RUNNING, AnyFailed | RUNNING, Superseded => true
  | _, _ => false
  end.

(** Number of teardown cycles in a run. *)
Fixpoint teardowns (c : controller) (obs : list observation) : nat :=
  match obs with
  | [] => 0
  | o :: obs' => (if tears_down c o then 1 else 0) + teardowns (step c o) obs'
  end.

(** The run meets a negotiation that fails for good: the rendezvous
    times out, or the backend stays unavailable. *)
Fixpoint negotiation_failed (c : controller) (obs : list observation) : bool :=
  match obs with
  | [] => false
  | o :: obs' =>
      match phase c, o with
      | NEGOTIATING, RendezvousTimeout => true
      | NEGOTIATING, BackendUnavailable => true
      | _, _ => negotiation_failed (step c o) obs'
      end
  end.

(** What holds of the counter in every state the controller gets to:
    it is within the budget until the controller has failed for good,
    and then it is past it by at most one. *)
Definition within_budget (c : controller) : Prop :=
  restarts_used (restart_state c) <= S (max_restarts (restart_state c)) /\
  (phase c <> FAILED_FATAL -> restarts_used (restart_state c) <= max_restarts (restart_state c)).

(** One round that ends in a worker failure, and one that ends well. *)
Definition failing_cycle : list observation := [RendezvousComplete; StillRunning; AnyFailed].
Definition clean_cycle : list observation := [RendezvousComplete; StillRunning; AllExitedZero].

Fixpoint cycles (k : nat) (cycle : list observation) : list observation :=
  match k with
  | O => []
  | S k' => cycle ++ cycles k' cycle
  end.

End RestartController.

Local Close Scope nat_scope.

(** ** Instances to run the definitions on *)

Module Sample.

(** A reading of the help text of [--rdzv_conf], "conf1=v1,conf2=v2,...",
    standing in for [_parse_rendezvous_config] on examples: the empty
    string is the empty dictionary, otherwise every comma-separated item
    must be a key, one equals sign and a value. *)
Fixpoint items (l : list string) : unit + gmap string string :=
  match l with
  | [] => inr ∅
  | kv :: l' =>
      match Py.split "=" kv, items l' with
      | [k; v], inr m => inr (<[k := v]> m)
      | _, _ => inl tt
      end
  end.

Definition parse_conf (s : string) : unit + gmap string string :=
  if String.eqb s "" then inr ∅ else items (rev (Py.split "," s)).

(** The redirect specification, kept as the number it spells. *)
Definition std_from_str (s : string) : unit + Z :=
  match Py.int s with
  | Some n => inr n
  | None => inl tt
  end.

Definition local_rank : string := "${local_rank}".

(** A launch that returns, and one that raises. *)
Definition launch_ok (c : LaunchConfig.t Z Z) (entrypoint : string) (argv : list string) : option unit := None.
Definition launch_fails (c : LaunchConfig.t Z Z) (entrypoint : string) (argv : list string) : option unit := Some tt.

Definition cpu_box : host :=
  {| cpu_count := Some 8; cuda_is_available := false; cuda_device_count := 0;
     sys_executable := "/usr/bin/python3";
     etcd_endpoint := "localhost:2379";
     uuid4 := "6f1c2a9e-0b1d-4c57-9a43-2f0e8d7b5a10" |}.

Definition gpu_box : host :=
  {| cpu_count := Some 32; cuda_is_available := true; cuda_device_count := 4;
     sys_executable := "/usr/bin/python3";
     etcd_endpoint := "localhost:2379";
     uuid4 := "6f1c2a9e-0b1d-4c57-9a43-2f0e8d7b5a10" |}.

(** A machine whose number of CPUs cannot be determined. *)
Definition bare_box : host :=
  {| cpu_count := None; cuda_is_available := false; cuda_device_count := 0;
     sys_executable := "/usr/bin/python3";
     etcd_endpoint := "localhost:2379";
     uuid4 := "6f1c2a9e-0b1d-4c57-9a43-2f0e8d7b5a10" |}.

(** The defaults of [get_args_parser] and [parse_args] for a script
    [train.py] with one argument, but for the options named here. *)
Definition options (nnodes nproc_per_node rdzv_backend rdzv_conf : string)
    (standalone module no_python use_env : bool) : Args.t Z :=
  {| Args.nnodes := nnodes; Args.nproc_per_node := nproc_per_node;
     Args.rdzv_backend := rdzv_backend; Args.rdzv_endpoint := "";
     Args.rdzv_id := "none"; Args.rdzv_conf := rdzv_conf;
     Args.standalone := standalone;
     Args.max_restarts := 3; Args.monitor_interval := 5;
     Args.start_method := "spawn"; Args.role := "default";
     Args.module := module; Args.no_python := no_python; Args.log_dir := None;
     Args.redirects := "0"; Args.tee := "0"; Args.node_rank := 0;
     Args.master_addr := "127.0.0.1"; Args.master_port := 29500;
     Args.training_script := "train.py";
     Args.training_script_args := ["--epochs=2"]; Args.use_env := use_env |}.

Definition defaults : Args.t Z :=
  options "1:1" "auto" "static" "" false false false true.

Definition fresh : process := {| environ := ∅; trace := [] |}.

Definition config_from (h : host) (a : Args.t Z) : M unit (LaunchConfig.t Z Z * list string) :=
  config_from_args parse_conf std_from_str local_rank h a.

Definition run_with (launch : LaunchConfig.t Z Z -> string -> list string -> option unit)
    (h : host) (a : Args.t Z) (p : process) : outcome unit unit * Args.t Z * process :=
  run parse_conf std_from_str local_rank launch h a p.

End Sample.

(** * Properties *)

(** ** The builtins on a few strings *)

Example int_plain : Py.int "4" = Some 4.
Proof. reflexivity. Qed.

Example int_blank_sign : Py.int "  -1_000 " = Some (-1000).
Proof. reflexivity. Qed.

Example int_double_underscore : Py.int "1__0" = None.
Proof. reflexivity. Qed.

Example int_words : Py.int "cpu" = None /\ Py.int "gpu" = None /\ Py.int "auto" = None /\ Py.int "" = None.
Proof. repeat split; reflexivity. Qed.

(** The separators FS, GS, RS and US (28 to 31) are blanks for
    [str.isspace] but not for [int], which refuses them. *)
Example int_separator :
  Py.int (String (ascii_of_nat 28) "5") = None /\
  Py.int ("5" +:+ String (ascii_of_nat 31) "") = None /\
  Py.int (String (ascii_of_nat 12) "5") = Some 5.
Proof. repeat split. Qed.

(** Decimal digits and blanks of other scripts are read: ARABIC-INDIC
    DIGIT THREE (U+0663), NO-BREAK SPACE (U+00A0) before FULLWIDTH DIGIT
    SEVEN (U+FF17); SUPERSCRIPT TWO (U+00B2) is no decimal digit. *)
Example int_unicode :
  Py.int "٣" = Some 3 /\ Py.int " ７" = Some 7 /\ Py.int "²" = None.
Proof. repeat split. Qed.

(** A field of [nnodes] that ends in the separator US is not read. *)
Example nnodes_separator :
  parse_min_max_nnodes (E := unit) ("1:2" +:+ String (ascii_of_nat 31) "")
  = Raises ValueError /\
  parse_min_max_nnodes (E := unit) (String (ascii_of_nat 28) "5")
  = Raises ValueError /\
  parse_min_max_nnodes (E := unit) " 1 : 2 " = Returns (1, 2).
Proof. repeat split. Qed.

Example split_two : Py.split ":" "1:4" = ["1"; "4"].
Proof. reflexivity. Qed.

Example split_edge : Py.split ":" "" = [""] /\ Py.split ":" ":" = [""; ""].
Proof. split; reflexivity. Qed.

Example str_port : Py.str 29500 = "29500" /\ Py.str 0 = "0" /\ Py.str (-7) = "-7".
Proof. repeat split; reflexivity. Qed.

(** ** Splitting and counting *)

Section Splitting.

Variable sep : ascii.

Lemma split_not_nil (s : string) : Py.split sep s <> [].
Proof.
  destruct s as [|c s]; simpl; [discriminate|].
  destruct (Ascii.eqb c sep); [discriminate|].
  destruct (Py.split sep s); discriminate.
Qed.

Lemma length_split (s : string) :
  length (Py.split sep s) = S (Py.count sep s).
Proof.
  induction s as [|c s IH]; simpl; [reflexivity|].
  destruct (Ascii.eqb c sep); simpl.
  - now rewrite IH.
  - destruct (Py.split sep s) eqn:Hs; simpl in *; [discriminate IH | exact IH].
Qed.

Lemma split_without_sep (s : string) :
  Py.count sep s = 0%nat -> Py.split sep s = [s].
Proof.
  induction s as [|c s IH]; simpl; [reflexivity|].
  destruct (Ascii.eqb c sep); simpl; [discriminate|].
  intros H. now rewrite (IH H).
Qed.

Lemma count_append (a b : string) :
  Py.count sep (a +:+ b) = (Py.count sep a + Py.count sep b)%nat.
Proof.
  induction a as [|c a IH]; simpl; [reflexivity|].
  rewrite IH. lia.
Qed.

Lemma split_at_sep (a b : string) :
  Py.count sep a = 0%nat ->
  Py.split sep (a +:+ String sep b) = a :: Py.split sep b.
Proof.
  induction a as [|c a IH]; simpl.
  - intros _. now rewrite Ascii.eqb_refl.
  - destruct (Ascii.eqb c sep); simpl; [discriminate|].
    intros H. now rewrite (IH H).
Qed.

End Splitting.

(** ** parse_min_max_nnodes *)

Section NnodesFacts.

Context {E : Type}.

Lemma parse_min_max_nnodes_many (nnodes : string) :
  (2 <= Py.count ":" nnodes)%nat ->
  parse_min_max_nnodes (E := E) nnodes = Raises RuntimeError.
Proof.
  intros H. unfold parse_min_max_nnodes.
  pose proof (length_split ":" nnodes) as Hlen.
  destruct (Py.split ":" nnodes) as [|a0 [|a1 [|a2 arr]]]; simpl in Hlen;
    try lia; reflexivity.
Qed.

(** C5. For every [nnodes]: without a colon the result is [(n, n)] for
    [n = int(nnodes)]; with exactly one colon, [nnodes] being
    [first:second], it is [(int(first), int(second))]; with two or more
    colons [RuntimeError] is raised. Where [int] is applied and raises,
    its [ValueError] is what comes out. *)
Theorem parse_min_max_nnodes_spec (nnodes : string) :
  (Py.count ":" nnodes = 0%nat ->
     (forall n, Py.int nnodes = Some n ->
        parse_min_max_nnodes (E := E) nnodes = Returns (n, n)) /\
     (Py.int nnodes = None ->
        parse_min_max_nnodes (E := E) nnodes = Raises ValueError)) /\
  (Py.count ":" nnodes = 1%nat ->
     forall first second, nnodes = first +:+ ":" +:+ second ->
       (forall x y, Py.int first = Some x -> Py.int second = Some y ->
          parse_min_max_nnodes (E := E) nnodes = Returns (x, y)) /\
       (Py.int first = None \/ Py.int second = None ->
          parse_min_max_nnodes (E := E) nnodes = Raises ValueError)) /\
  ((2 <= Py.count ":" nnodes)%nat ->
     parse_min_max_nnodes (E := E) nnodes = Raises RuntimeError).
Proof.
  split; [|split].
  - intros H0. unfold parse_min_max_nnodes, to_int.
    rewrite (split_without_sep _ _ H0).
    split; [intros n Hn | intros Hn]; now rewrite Hn.
  - intros H1 first second ->.
    change (first +:+ ":" +:+ second) with (first +:+ String ":" second) in *.
    rewrite count_append in H1. simpl in H1.
    assert (Py.count ":" first = 0%nat) as Hf by lia.
    assert (Py.count ":" second = 0%nat) as Hs by lia.
    unfold parse_min_max_nnodes, to_int.
    rewrite (split_at_sep _ _ _ Hf), (split_without_sep _ _ Hs).
    split.
    + intros x y Hx Hy. now rewrite Hx, Hy.
    + intros [Hx | Hy].
      * now rewrite Hx.
      * rewrite Hy. now destruct (Py.int first).
  - apply parse_min_max_nnodes_many.
Qed.

End NnodesFacts.

Lemma parse_min_max_nnodes_spec_witness :
  parse_min_max_nnodes (E := unit) "2" = Returns (2, 2) /\
  parse_min_max_nnodes (E := unit) "two" = Raises ValueError /\
  parse_min_max_nnodes (E := unit) "1:4" = Returns (1, 4) /\
  parse_min_max_nnodes (E := unit) "1:" = Raises ValueError /\
  parse_min_max_nnodes (E := unit) "1:2:3" = Raises RuntimeError.
Proof.
  destruct (parse_min_max_nnodes_spec (E := unit) "2") as [H2 _].
  destruct (parse_min_max_nnodes_spec (E := unit) "two") as [Htwo _].
  destruct (parse_min_max_nnodes_spec (E := unit) "1:4") as [_ [H14 _]].
  destruct (parse_min_max_nnodes_spec (E := unit) "1:") as [_ [H1 _]].
  destruct (parse_min_max_nnodes_spec (E := unit) "1:2:3") as [_ [_ H123]].
  refine (conj _ (conj _ (conj _ (conj _ _)))).
  - apply (H2 eq_refl); reflexivity.
  - apply (Htwo eq_refl); reflexivity.
  - apply (H14 eq_refl "1" "4" eq_refl); reflexivity.
  - apply (H1 eq_refl "1" "" eq_refl). right. reflexivity.
  - apply H123. simpl. lia.
Defined.

(** ** determine_local_world_size *)

Section WorldSizeFacts.

Context {E : Type}.
Variable h : host.

(** Resolving the worker count never touches [os.environ]. *)
Lemma determine_local_world_size_environ (s : string) (p : process) :
  environ (determine_local_world_size (E := E) h s p).2 = environ p.
Proof.
  unfold determine_local_world_size, bind, emit, ret, raise. simpl.
  destruct (Py.int s); [reflexivity|].
  destruct (String.eqb s "cpu"); [reflexivity|].
  destruct (String.eqb s "gpu"); [destruct (cuda_is_available h); reflexivity|].
  destruct (String.eqb s "auto"); [destruct (cuda_is_available h); reflexivity|].
  reflexivity.
Qed.

(** Its first act is the record of the string it was given. *)
Lemma determine_local_world_size_trace (s : string) (p : process) :
  exists evs,
    trace (determine_local_world_size (E := E) h s p).2
    = trace p ++ logging_info_using s :: evs.
Proof.
  unfold determine_local_world_size, bind, emit, ret, raise. simpl.
  destruct (Py.int s); [now exists []|].
  destruct (String.eqb s "cpu"); simpl;
    [rewrite <- app_assoc; simpl; eauto|].
  destruct (String.eqb s "gpu");
    [destruct (cuda_is_available h); simpl;
     [rewrite <- app_assoc; simpl; eauto | now exists []]|].
  destruct (String.eqb s "auto");
    [destruct (cuda_is_available h); simpl; rewrite <- app_assoc; simpl; eauto|].
  now exists [].
Qed.

(** It leaves the embedded server alone. *)
Lemma determine_local_world_size_quiet (s : string) (p : process) :
  exists evs,
    trace (determine_local_world_size (E := E) h s p).2 = trace p ++ evs /\
    quiet evs = true.
Proof.
  unfold determine_local_world_size, bind, emit, ret, raise. simpl.
  destruct (Py.int s); [eexists; split; reflexivity|].
  destruct (String.eqb s "cpu"); simpl;
    [rewrite <- app_assoc; eexists; split; reflexivity|].
  destruct (String.eqb s "gpu");
    [destruct (cuda_is_available h); simpl; rewrite <- ?app_assoc;
     eexists; split; reflexivity|].
  destruct (String.eqb s "auto");
    [destruct (cuda_is_available h); simpl; rewrite <- app_assoc;
     eexists; split; reflexivity|].
  eexists; split; reflexivity.
Qed.

(** The function reads the machine and its argument, and nothing of
    the process: with the same answers from the machine, the exit is
    the same whatever the environment and the trace. *)
Lemma determine_local_world_size_exit (s : string) (p p' : process) :
  (determine_local_world_size (E := E) h s p).1
  = (determine_local_world_size (E := E) h s p').1.
Proof.
  unfold determine_local_world_size, bind, emit, ret, raise. simpl.
  destruct (Py.int s); [reflexivity|].
  destruct (String.eqb s "cpu"); [reflexivity|].
  destruct (String.eqb s "gpu"); [destruct (cuda_is_available h); reflexivity|].
  destruct (String.eqb s "auto"); [destruct (cuda_is_available h); reflexivity|].
  reflexivity.
Qed.

(** It returns a value or raises [ValueError]. *)
Lemma determine_local_world_size_exits (s : string) (p : process) :
  (exists v, (determine_local_world_size (E := E) h s p).1 = Returns v) \/
  (determine_local_world_size (E := E) h s p).1 = Raises ValueError.
Proof.
  unfold determine_local_world_size, bind, emit, ret, raise. simpl.
  destruct (Py.int s); [left; eauto|].
  destruct (String.eqb s "cpu"); [left; eauto|].
  destruct (String.eqb s "gpu");
    [destruct (cuda_is_available h); simpl; [left; eauto | now right]|].
  destruct (String.eqb s "auto");
    [destruct (cuda_is_available h); left; eauto|].
  now right.
Qed.

(** The value returned is [None] only where it is [os.cpu_count()]. *)
Lemma determine_local_world_size_none (s : string) (p : process) :
  (determine_local_world_size (E := E) h s p).1 = Returns None <->
  cpu_count h = None /\
  (s = "cpu" \/ s = "auto" /\ cuda_is_available h = false).
Proof.
  unfold determine_local_world_size, bind, emit, ret, raise. simpl.
  destruct (Py.int s) eqn:Hint.
  { split; [discriminate|]. intros [_ [-> | [-> _]]]; discriminate Hint. }
  destruct (String.eqb_spec s "cpu") as [->|Hcpu].
  { simpl. split; [intros [= ->]; auto | intros [-> _]; reflexivity]. }
  destruct (String.eqb_spec s "gpu") as [->|Hgpu].
  { destruct (cuda_is_available h); simpl;
      (split; [discriminate | intros [_ [? | [? _]]]; discriminate]). }
  destruct (String.eqb_spec s "auto") as [->|Hauto].
  { destruct (cuda_is_available h); simpl.
    - split; [discriminate | intros [_ [? | [_ ?]]]; discriminate].
    - split; [intros [= ->]; auto | intros [-> _]; reflexivity]. }
  split; [discriminate | intros [_ [? | [? _]]]; contradiction].
Qed.

(** C1, amended. For every [nproc_per_node]: a string that [int] reads
    gives that integer; cpu gives [os.cpu_count()]; gpu gives the CUDA
    device count, and [ValueError] without CUDA; auto gives the CUDA
    device count with CUDA and [os.cpu_count()] without; every other
    string raises [ValueError]. So the exit is an integer or [ValueError]
    whenever [os.cpu_count()] is known; the one other exit is the value
    [None], returned exactly when [os.cpu_count()] is [None] and the
    string is cpu, or auto without CUDA. *)
Theorem determine_local_world_size_spec (nproc_per_node : string) (p : process) :
  let exit := (determine_local_world_size (E := E) h nproc_per_node p).1 in
  (forall n, Py.int nproc_per_node = Some n -> exit = Returns (Some n)) /\
  (nproc_per_node = "cpu" -> exit = Returns (cpu_count h)) /\
  (nproc_per_node = "gpu" ->
     exit = if cuda_is_available h then Returns (Some (cuda_device_count h))
            else Raises ValueError) /\
  (nproc_per_node = "auto" ->
     exit = Returns (if cuda_is_available h then Some (cuda_device_count h)
                     else cpu_count h)) /\
  (Py.int nproc_per_node = None -> nproc_per_node <> "cpu" ->
     nproc_per_node <> "gpu" -> nproc_per_node <> "auto" ->
     exit = Raises ValueError) /\
  ((exists n, exit = Returns (Some n)) \/ exit = Raises ValueError \/
   exit = Returns None) /\
  (exit = Returns None <->
   cpu_count h = None /\
   (nproc_per_node = "cpu" \/
    nproc_per_node = "auto" /\ cuda_is_available h = false)) /\
  (is_Some (cpu_count h) ->
     (exists n, exit = Returns (Some n)) \/ exit = Raises ValueError).
Proof.
  cbv zeta.
  assert ((exists n, (determine_local_world_size (E := E) h nproc_per_node p).1
                     = Returns (Some n)) \/
          (determine_local_world_size (E := E) h nproc_per_node p).1
          = Raises ValueError \/
          (determine_local_world_size (E := E) h nproc_per_node p).1
          = Returns None) as Hexits.
  { destruct (determine_local_world_size_exits nproc_per_node p) as [[[n|] Hv] | He];
      eauto. }
  refine (conj _ (conj _ (conj _ (conj _ (conj _ (conj Hexits (conj _ _))))))).
  - intros n Hn.
    unfold determine_local_world_size, bind, emit, ret, raise. simpl.
    now rewrite Hn.
  - intros ->. reflexivity.
  - intros ->.
    unfold determine_local_world_size, bind, emit, ret, raise. simpl.
    now destruct (cuda_is_available h).
  - intros ->.
    unfold determine_local_world_size, bind, emit, ret, raise. simpl.
    now destruct (cuda_is_available h).
  - intros Hint Hcpu Hgpu Hauto.
    unfold determine_local_world_size, bind, emit, ret, raise. simpl.
    rewrite Hint.
    apply String.eqb_neq in Hcpu, Hgpu, Hauto.
    now rewrite Hcpu, Hgpu, Hauto.
  - apply determine_local_world_size_none.
  - intros [c Hc]. destruct Hexits as [Hn | [He | Hnone]]; [now left | now right |].
    apply determine_local_world_size_none in Hnone as [Hnone _].
    rewrite Hc in Hnone. discriminate Hnone.
Qed.

End WorldSizeFacts.

Lemma determine_local_world_size_spec_witness :
  (determine_local_world_size (E := unit) Sample.gpu_box "2" Sample.fresh).1
  = Returns (Some 2) /\
  (determine_local_world_size (E := unit) Sample.gpu_box "cpu" Sample.fresh).1
  = Returns (Some 32) /\
  (determine_local_world_size (E := unit) Sample.gpu_box "gpu" Sample.fresh).1
  = Returns (Some 4) /\
  (determine_local_world_size (E := unit) Sample.cpu_box "gpu" Sample.fresh).1
  = Raises ValueError /\
  (determine_local_world_size (E := unit) Sample.cpu_box "auto" Sample.fresh).1
  = Returns (Some 8) /\
  (determine_local_world_size (E := unit) Sample.cpu_box "tpu" Sample.fresh).1
  = Raises ValueError /\
  (determine_local_world_size (E := unit) Sample.bare_box "auto" Sample.fresh).1
  = Returns None /\
  ((exists n,
      (determine_local_world_size (E := unit) Sample.cpu_box "cpu" Sample.fresh).1
      = Returns (Some n)) \/
   (determine_local_world_size (E := unit) Sample.cpu_box "cpu" Sample.fresh).1
   = Raises ValueError).
Proof.
  pose proof (determine_local_world_size_spec (E := unit) Sample.gpu_box) as G.
  pose proof (determine_local_world_size_spec (E := unit) Sample.cpu_box) as C.
  pose proof (determine_local_world_size_spec (E := unit) Sample.bare_box) as B.
  refine (conj _ (conj _ (conj _ (conj _ (conj _ (conj _ (conj _ _))))))).
  - destruct (G "2" Sample.fresh) as [H _]. apply H. reflexivity.
  - destruct (G "cpu" Sample.fresh) as [_ [H _]]. apply H. reflexivity.
  - destruct (G "gpu" Sample.fresh) as [_ [_ [H _]]]. apply H. reflexivity.
  - destruct (C "gpu" Sample.fresh) as [_ [_ [H _]]]. apply H. reflexivity.
  - destruct (C "auto" Sample.fresh) as [_ [_ [_ [H _]]]]. apply H. reflexivity.
  - destruct (C "tpu" Sample.fresh) as [_ [_ [_ [_ [H _]]]]].
    apply H; [reflexivity | discriminate ..].
  - destruct (B "auto" Sample.fresh) as [_ [_ [_ [_ [_ [_ [H _]]]]]]].
    apply H. split; [reflexivity | right; split; reflexivity].
  - destruct (C "cpu" Sample.fresh) as [_ [_ [_ [_ [_ [_ [_ H]]]]]]].
    apply H. now exists 8.
Defined.

(** C1 as first written fails where the number of CPUs cannot be
    determined: [os.cpu_count()] is then [None], and for cpu the function
    returns that [None], neither an integer nor [ValueError]. *)
Lemma determine_local_world_size_spec_counterexample :
  let exit :=
    (determine_local_world_size (E := unit) Sample.bare_box "cpu" Sample.fresh).1 in
  exit = Returns None /\
  ~ (exists n : Z, exit = Returns (Some n)) /\
  exit <> Raises ValueError.
Proof.
  cbv zeta. split; [reflexivity|]. split; [intros [n Hn]|intros Hn]; discriminate Hn.
Qed.

(** ** config_from_args *)

Ltac launcher_unfold :=
  unfold config_from_args, bind, lift, assert, call, in_environ, setenv,
    emit, ret, raise.

Section ConfigFacts.

Context {E float std : Type}.
Variable _parse_rendezvous_config : string -> E + gmap string string.
Variable Std_from_str : string -> E + std.
Variable macros_local_rank : string.
Variable h : host.

Abbreviation args := (Args.t float).
Abbreviation config := (LaunchConfig.t float std).
Abbreviation config_from_args :=
  (config_from_args _parse_rendezvous_config Std_from_str macros_local_rank h).

Lemma bounds_ok_checks (min_nodes max_nodes max_restarts : Z) :
  bounds_ok min_nodes max_nodes max_restarts <->
  (0 <? min_nodes) && (min_nodes <=? max_nodes) = true /\
  (max_restarts >=? 0) = true.
Proof. unfold bounds_ok. lia. Qed.

(** How a call that gets past the two [assert]s and the resolution of
    the worker count goes on. *)
Lemma config_from_args_resolved (a : args) (p p1 : process)
    (min_nodes max_nodes : Z) (v : option Z) :
  parse_min_max_nnodes (E := E) (Args.nnodes a) = Returns (min_nodes, max_nodes) ->
  bounds_ok min_nodes max_nodes (Args.max_restarts a) ->
  determine_local_world_size (E := E) h (Args.nproc_per_node a) p = (Returns v, p1) ->
  config_from_args a p =
    match after_omp v p1 with
    | None => (Raises TypeError, p1)
    | Some p2 =>
        match _parse_rendezvous_config (Args.rdzv_conf a) with
        | inl e => (Raises (LibraryError e), p2)
        | inr parsed =>
            match Std_from_str (Args.redirects a) with
            | inl e => (Raises (LibraryError e), p2)
            | inr redirects =>
                match Std_from_str (Args.tee a) with
                | inl e => (Raises (LibraryError e), p2)
                | inr tee =>
                    if flags_rejected a then (Raises ValueError, p2)
                    else
                      (Returns
                         (LaunchConfig.mk min_nodes max_nodes v (Args.rdzv_id a)
                            (Args.role a) (get_rdzv_endpoint a) (Args.rdzv_backend a)
                            (if String.eqb (Args.rdzv_backend a) "static"
                             then <["rank" := ConfInt (Args.node_rank a)]> (ConfStr <$> parsed)
                             else ConfStr <$> parsed)
                            (Args.max_restarts a) (Args.monitor_interval a)
                            (Args.start_method a) redirects tee,
                          command macros_local_rank h a),
                       if Args.use_env a then p2
                       else Process (environ p2) (trace p2 ++ [log_warning_deprecated]))
                end
            end
        end
    end.
Proof.
  intros Hparse Hok Hn. apply bounds_ok_checks in Hok as [Hb Hr].
  launcher_unfold. rewrite Hparse. simpl. rewrite Hb, Hr. simpl. rewrite Hn.
  unfold after_omp, flags_rejected, command.
  destruct (bool_decide (is_Some (environ p1 !! "OMP_NUM_THREADS")));
    [|destruct v as [n|]; [destruct (n >? 1)|]];
    simpl; try reflexivity;
    destruct (_parse_rendezvous_config (Args.rdzv_conf a)); try reflexivity;
    destruct (Std_from_str (Args.redirects a)); try reflexivity;
    destruct (Std_from_str (Args.tee a)); try reflexivity;
    destruct (Args.no_python a), (Args.use_env a), (Args.module a); simpl;
    rewrite <- ?app_assoc; reflexivity.
Qed.

Lemma config_from_args_unparsed (a : args) (p : process) (e : exn E) :
  parse_min_max_nnodes (Args.nnodes a) = Raises e ->
  config_from_args a p = (Raises e, p).
Proof. intros Hparse. launcher_unfold. now rewrite Hparse. Qed.

Lemma config_from_args_rejected (a : args) (p : process) (min_nodes max_nodes : Z) :
  parse_min_max_nnodes (E := E) (Args.nnodes a) = Returns (min_nodes, max_nodes) ->
  ~ bounds_ok min_nodes max_nodes (Args.max_restarts a) ->
  config_from_args a p = (Raises AssertionError, p).
Proof.
  intros Hparse Hbad. rewrite bounds_ok_checks in Hbad.
  launcher_unfold. rewrite Hparse. simpl.
  destruct ((0 <? min_nodes) && (min_nodes <=? max_nodes)); [|reflexivity].
  destruct (Args.max_restarts a >=? 0); [|reflexivity].
  now destruct Hbad.
Qed.

Lemma config_from_args_unresolved (a : args) (p p1 : process)
    (min_nodes max_nodes : Z) (e : exn E) :
  parse_min_max_nnodes (E := E) (Args.nnodes a) = Returns (min_nodes, max_nodes) ->
  bounds_ok min_nodes max_nodes (Args.max_restarts a) ->
  determine_local_world_size h (Args.nproc_per_node a) p = (Raises e, p1) ->
  config_from_args a p = (Raises e, p1).
Proof.
  intros Hparse Hok He. apply bounds_ok_checks in Hok as [Hb Hr].
  launcher_unfold. rewrite Hparse. simpl. rewrite Hb, Hr. simpl. now rewrite He.
Qed.

Lemma bounds_ok_dec (min_nodes max_nodes max_restarts : Z) :
  bounds_ok min_nodes max_nodes max_restarts \/
  ~ bounds_ok min_nodes max_nodes max_restarts.
Proof. unfold bounds_ok. lia. Qed.

(** What [after_omp] does to the two parts of the process. *)
Lemma after_omp_environ (v : option Z) (p p2 : process) :
  after_omp v p = Some p2 ->
  environ p2
  = match v with
    | Some n =>
        if negb (bool_decide (is_Some (environ p !! "OMP_NUM_THREADS"))) && (n >? 1)
        then <["OMP_NUM_THREADS" := "1"]> (environ p)
        else environ p
    | None => environ p
    end.
Proof.
  unfold after_omp.
  destruct (bool_decide (is_Some (environ p !! "OMP_NUM_THREADS")));
    [intros [= <-]; now destruct v|].
  destruct v as [n|]; [|discriminate]. intros [= <-]. simpl.
  now destruct (n >? 1).
Qed.

Lemma after_omp_trace (v : option Z) (p p2 : process) :
  after_omp v p = Some p2 ->
  exists evs, trace p2 = trace p ++ evs /\ quiet evs = true.
Proof.
  unfold after_omp.
  destruct (bool_decide (is_Some (environ p !! "OMP_NUM_THREADS")));
    [intros [= <-]; exists []; now rewrite app_nil_r|].
  destruct v as [n|]; [|discriminate]. intros [= <-].
  destruct (n >? 1); simpl; [eauto | exists []; now rewrite app_nil_r].
Qed.

(** What a call that returns has gone through. *)
Lemma config_from_args_returns (a : args) (p p' : process) (cfg : config) (cmd : list string) :
  config_from_args a p = (Returns (cfg, cmd), p') ->
  exists min_nodes max_nodes v p1 parsed redirects tee,
    parse_min_max_nnodes (E := E) (Args.nnodes a) = Returns (min_nodes, max_nodes) /\
    bounds_ok min_nodes max_nodes (Args.max_restarts a) /\
    determine_local_world_size (E := E) h (Args.nproc_per_node a) p = (Returns v, p1) /\
    _parse_rendezvous_config (Args.rdzv_conf a) = inr parsed /\
    Std_from_str (Args.redirects a) = inr redirects /\
    Std_from_str (Args.tee a) = inr tee /\
    flags_rejected a = false /\
    cfg = LaunchConfig.mk min_nodes max_nodes v (Args.rdzv_id a)
            (Args.role a) (get_rdzv_endpoint a) (Args.rdzv_backend a)
            (if String.eqb (Args.rdzv_backend a) "static"
             then <["rank" := ConfInt (Args.node_rank a)]> (ConfStr <$> parsed)
             else ConfStr <$> parsed)
            (Args.max_restarts a) (Args.monitor_interval a)
            (Args.start_method a) redirects tee /\
    cmd = command macros_local_rank h a /\
    Some (environ p') = environ <$> after_omp v p1.
Proof.
  intros Hrun.
  destruct (parse_min_max_nnodes (E := E) (Args.nnodes a)) as [[min_nodes max_nodes]|e] eqn:Hparse;
    [|rewrite (config_from_args_unparsed _ _ _ Hparse) in Hrun; discriminate].
  destruct (bounds_ok_dec min_nodes max_nodes (Args.max_restarts a)) as [Hok|Hbad];
    [|rewrite (config_from_args_rejected _ _ _ _ Hparse Hbad) in Hrun; discriminate].
  destruct (determine_local_world_size (E := E) h (Args.nproc_per_node a) p) as [[v|e] p1] eqn:Hn;
    [|rewrite (config_from_args_unresolved _ _ _ _ _ _ Hparse Hok Hn) in Hrun; discriminate].
  rewrite (config_from_args_resolved _ _ _ _ _ _ Hparse Hok Hn) in Hrun.
  destruct (after_omp v p1) as [p2|] eqn:Hp2; [|discriminate].
  destruct (_parse_rendezvous_config (Args.rdzv_conf a)) as [|parsed]; [discriminate|].
  destruct (Std_from_str (Args.redirects a)) as [|redirects]; [discriminate|].
  destruct (Std_from_str (Args.tee a)) as [|tee]; [discriminate|].
  destruct (flags_rejected a) eqn:Hflags; [discriminate|].
  injection Hrun as Hcfg Hcmd Hp.
  exists min_nodes, max_nodes, v, p1, parsed, redirects, tee.
  repeat (split; [first [reflexivity | assumption | now symmetry]|]).
  subst p'. rewrite Hp2. destruct (Args.use_env a); reflexivity.
Qed.

(** Once the worker count is being resolved, the trace only grows. *)
Lemma config_from_args_past_asserts (a : args) (p : process) (min_nodes max_nodes : Z) :
  parse_min_max_nnodes (E := E) (Args.nnodes a) = Returns (min_nodes, max_nodes) ->
  bounds_ok min_nodes max_nodes (Args.max_restarts a) ->
  exists evs,
    trace (config_from_args a p).2
    = trace p ++ logging_info_using (Args.nproc_per_node a) :: evs.
Proof.
  intros Hparse Hok.
  destruct (determine_local_world_size_trace (E := E) h (Args.nproc_per_node a) p)
    as [evs Hevs].
  destruct (determine_local_world_size (E := E) h (Args.nproc_per_node a) p)
    as [[v|e] p1] eqn:Hn; simpl in Hevs.
  - rewrite (config_from_args_resolved _ _ _ _ _ _ Hparse Hok Hn).
    destruct (after_omp v p1) as [p2|] eqn:Hp2; [|simpl; eauto].
    destruct (after_omp_trace _ _ _ Hp2) as (evs1 & H1 & _).
    destruct (_parse_rendezvous_config (Args.rdzv_conf a));
      [|destruct (Std_from_str (Args.redirects a));
        [|destruct (Std_from_str (Args.tee a));
          [|destruct (flags_rejected a); [|destruct (Args.use_env a)]]]];
      simpl; rewrite H1, Hevs, <- ?app_assoc; simpl; eauto.
  - rewrite (config_from_args_unresolved _ _ _ _ _ _ Hparse Hok Hn). simpl. eauto.
Qed.

(** C3. With the bounds [(min_nodes, max_nodes)] read from [args.nnodes]:
    unless [0 < min_nodes <= max_nodes] and [args.max_restarts >= 0],
    [config_from_args] raises [AssertionError] and leaves the process as
    it found it (nothing logged, so no worker count resolved and no
    [LaunchConfig] built); when both hold, it never raises
    [AssertionError] and goes on to resolve the worker count. *)
Theorem config_from_args_asserts (a : args) (p : process) (min_nodes max_nodes : Z) :
  parse_min_max_nnodes (E := E) (Args.nnodes a) = Returns (min_nodes, max_nodes) ->
  (~ (0 < min_nodes <= max_nodes /\ Args.max_restarts a >= 0) ->
     config_from_args a p = (Raises AssertionError, p)) /\
  (0 < min_nodes <= max_nodes /\ Args.max_restarts a >= 0 ->
     (config_from_args a p).1 <> Raises AssertionError /\
     exists evs,
       trace (config_from_args a p).2
       = trace p ++ logging_info_using (Args.nproc_per_node a) :: evs).
Proof.
  intros Hparse. split.
  - intros Hbad. now apply (config_from_args_rejected _ _ _ _ Hparse).
  - intros Hok. split; [|now apply (config_from_args_past_asserts _ _ _ _ Hparse)].
    pose proof (determine_local_world_size_exits (E := E) h (Args.nproc_per_node a) p)
      as Hexit.
    destruct (determine_local_world_size (E := E) h (Args.nproc_per_node a) p)
      as [o p1] eqn:Hn. simpl in Hexit.
    destruct Hexit as [[v ->] | ->].
    + rewrite (config_from_args_resolved _ _ _ _ _ _ Hparse Hok Hn).
      destruct (after_omp v p1); [|discriminate].
      destruct (_parse_rendezvous_config (Args.rdzv_conf a)); [discriminate|].
      destruct (Std_from_str (Args.redirects a)); [discriminate|].
      destruct (Std_from_str (Args.tee a)); [discriminate|].
      destruct (flags_rejected a); discriminate.
    + rewrite (config_from_args_unresolved _ _ _ _ _ _ Hparse Hok Hn). discriminate.
Qed.


(** C10. When [config_from_args] returns, the [rdzv_configs] of the
    [LaunchConfig] map the key rank to the integer [args.node_rank] if
    and only if the backend is static; for any other backend they are
    exactly the pairs read from [args.rdzv_conf], and for the static one
    those pairs with rank set on top. *)
Theorem config_from_args_rdzv_configs (a : args) (p p' : process) (cfg : config) (cmd : list string) :
  config_from_args a p = (Returns (cfg, cmd), p') ->
  exists parsed,
    _parse_rendezvous_config (Args.rdzv_conf a) = inr parsed /\
    (LaunchConfig.rdzv_configs cfg !! "rank" = Some (ConfInt (Args.node_rank a))
     <-> Args.rdzv_backend a = "static") /\
    (Args.rdzv_backend a <> "static" ->
       LaunchConfig.rdzv_configs cfg = ConfStr <$> parsed) /\
    (Args.rdzv_backend a = "static" ->
       LaunchConfig.rdzv_configs cfg
       = <["rank" := ConfInt (Args.node_rank a)]> (ConfStr <$> parsed)).
Proof.
  intros Hrun.
  destruct (config_from_args_returns _ _ _ _ _ Hrun)
    as (min_nodes & max_nodes & n & p1 & parsed & redirects & tee
        & _ & _ & _ & Hconf & _ & _ & _ & -> & _ & _).
  exists parsed. simpl. split; [assumption|].
  destruct (String.eqb_spec (Args.rdzv_backend a) "static") as [Hst|Hne].
  - split; [|split]; [|now intros ?|reflexivity].
    split; [now intros _|]. intros _. apply lookup_insert_eq.
  - split; [|split]; [|reflexivity|now intros ?].
    split; [|now intros ?]. rewrite lookup_fmap.
    destruct (parsed !! "rank"); discriminate.
Qed.

Lemma quiet_app (evs evs' : list event) :
  quiet evs = true -> quiet evs' = true -> quiet (evs ++ evs') = true.
Proof. unfold quiet. rewrite forallb_app. now intros -> ->. Qed.

(** [config_from_args] only adds to the trace, and leaves the embedded
    server alone. *)
Lemma config_from_args_quiet (a : args) (p : process) :
  exists evs,
    trace (config_from_args a p).2 = trace p ++ evs /\ quiet evs = true.
Proof.
  destruct (parse_min_max_nnodes (E := E) (Args.nnodes a))
    as [[min_nodes max_nodes]|e] eqn:Hparse;
    [|rewrite (config_from_args_unparsed _ _ _ Hparse); exists [];
      now rewrite app_nil_r].
  destruct (bounds_ok_dec min_nodes max_nodes (Args.max_restarts a)) as [Hok|Hbad];
    [|rewrite (config_from_args_rejected _ _ _ _ Hparse Hbad); exists [];
      now rewrite app_nil_r].
  destruct (determine_local_world_size_quiet (E := E) h (Args.nproc_per_node a) p)
    as (evs & Hevs & Hq).
  destruct (determine_local_world_size (E := E) h (Args.nproc_per_node a) p)
    as [[v|e] p1] eqn:Hn; simpl in Hevs;
    [|rewrite (config_from_args_unresolved _ _ _ _ _ _ Hparse Hok Hn); eauto].
  rewrite (config_from_args_resolved _ _ _ _ _ _ Hparse Hok Hn).
  destruct (after_omp v p1) as [p2|] eqn:Hp2; [|eauto].
  assert (exists evs1, trace p2 = trace p ++ evs1 /\ quiet evs1 = true)
    as (evs1 & H1 & Hq1).
  { destruct (after_omp_trace _ _ _ Hp2) as (evs2 & H2 & Hq2).
    rewrite H2, Hevs, <- app_assoc. eexists; split; [reflexivity|].
    now apply quiet_app. }
  destruct (_parse_rendezvous_config (Args.rdzv_conf a)); [eauto|].
  destruct (Std_from_str (Args.redirects a)); [eauto|].
  destruct (Std_from_str (Args.tee a)); [eauto|].
  destruct (flags_rejected a); [eauto|].
  destruct (Args.use_env a); [eauto|]. simpl.
  rewrite H1, <- app_assoc. eexists; split; [reflexivity|].
  now apply quiet_app.
Qed.

(** The environment a call leaves behind, when it got as far as a worker
    count [v]. *)
Lemma config_from_args_environ_resolved (a : args) (p : process)
    (min_nodes max_nodes : Z) (v : option Z) :
  parse_min_max_nnodes (E := E) (Args.nnodes a) = Returns (min_nodes, max_nodes) ->
  bounds_ok min_nodes max_nodes (Args.max_restarts a) ->
  (determine_local_world_size (E := E) h (Args.nproc_per_node a) p).1 = Returns v ->
  environ (config_from_args a p).2
  = match v with
    | Some n =>
        if negb (bool_decide (is_Some (environ p !! "OMP_NUM_THREADS"))) && (n >? 1)
        then <["OMP_NUM_THREADS" := "1"]> (environ p)
        else environ p
    | None => environ p
    end.
Proof.
  intros Hparse Hok Hexit.
  pose proof (determine_local_world_size_environ (E := E) h (Args.nproc_per_node a) p) as Henv.
  destruct (determine_local_world_size (E := E) h (Args.nproc_per_node a) p)
    as [o p1] eqn:Hn. simpl in Hexit, Henv. subst o.
  rewrite (config_from_args_resolved _ _ _ _ _ _ Hparse Hok Hn).
  rewrite <- Henv.
  destruct (after_omp v p1) as [p2|] eqn:Hp2.
  - rewrite <- (after_omp_environ _ _ _ Hp2).
    destruct (_parse_rendezvous_config (Args.rdzv_conf a)); [reflexivity|].
    destruct (Std_from_str (Args.redirects a)); [reflexivity|].
    destruct (Std_from_str (Args.tee a)); [reflexivity|].
    destruct (flags_rejected a); [reflexivity|].
    now destruct (Args.use_env a).
  - unfold after_omp in Hp2.
    destruct (bool_decide (is_Some (environ p1 !! "OMP_NUM_THREADS")));
      [discriminate|].
    destruct v; [discriminate | reflexivity].
Qed.

(** C9. Let [n] be the worker count [config_from_args] resolves (the
    bounds were read and passed the two [assert]s). If OMP_NUM_THREADS is
    absent from the environment and [n > 1], the environment it leaves is
    the one it found with OMP_NUM_THREADS set to 1. In every other case
    the environment is left as found: the variable was present, [n <= 1],
    or the call did not get to an integer worker count at all. *)
Theorem config_from_args_environ (a : args) (p : process) :
  let resolved (n : Z) :=
    exists min_nodes max_nodes,
      parse_min_max_nnodes (E := E) (Args.nnodes a) = Returns (min_nodes, max_nodes) /\
      (0 < min_nodes <= max_nodes /\ Args.max_restarts a >= 0) /\
      (determine_local_world_size (E := E) h (Args.nproc_per_node a) p).1
      = Returns (Some n) in
  let left := environ (config_from_args a p).2 in
  (forall n, resolved n -> environ p !! "OMP_NUM_THREADS" = None -> n > 1 ->
     left = <["OMP_NUM_THREADS" := "1"]> (environ p)) /\
  (is_Some (environ p !! "OMP_NUM_THREADS") -> left = environ p) /\
  (forall n, resolved n -> n <= 1 -> left = environ p) /\
  (~ (exists n, resolved n) -> left = environ p).
Proof.
  cbv zeta.
  assert (forall n,
    (exists min_nodes max_nodes,
      parse_min_max_nnodes (E := E) (Args.nnodes a) = Returns (min_nodes, max_nodes) /\
      (0 < min_nodes <= max_nodes /\ Args.max_restarts a >= 0) /\
      (determine_local_world_size (E := E) h (Args.nproc_per_node a) p).1
      = Returns (Some n)) ->
    environ (config_from_args a p).2
    = if negb (bool_decide (is_Some (environ p !! "OMP_NUM_THREADS"))) && (n >? 1)
      then <["OMP_NUM_THREADS" := "1"]> (environ p)
      else environ p) as Hres.
  { intros n (min_nodes & max_nodes & Hparse & Hok & Hexit).
    now rewrite (config_from_args_environ_resolved _ _ _ _ _ Hparse Hok Hexit). }
  assert (forall min_nodes max_nodes e p1,
    parse_min_max_nnodes (E := E) (Args.nnodes a) = Returns (min_nodes, max_nodes) ->
    bounds_ok min_nodes max_nodes (Args.max_restarts a) ->
    determine_local_world_size (E := E) h (Args.nproc_per_node a) p = (Raises e, p1) ->
    environ (config_from_args a p).2 = environ p) as Hraise.
  { intros min_nodes max_nodes e p1 Hparse Hok Hn.
    rewrite (config_from_args_unresolved _ _ _ _ _ _ Hparse Hok Hn). simpl.
    pose proof (determine_local_world_size_environ (E := E) h (Args.nproc_per_node a) p) as Henv.
    now rewrite Hn in Henv. }
  refine (conj _ (conj _ (conj _ _))).
  - intros n Hn Habsent Hgt. rewrite (Hres n Hn), Habsent.
    rewrite bool_decide_eq_false_2 by (intros [? ?]; discriminate).
    simpl. now replace (n >? 1) with true by lia.
  - intros Hpresent.
    destruct (parse_min_max_nnodes (E := E) (Args.nnodes a))
      as [[min_nodes max_nodes]|e] eqn:Hparse;
      [|now rewrite (config_from_args_unparsed _ _ _ Hparse)].
    destruct (bounds_ok_dec min_nodes max_nodes (Args.max_restarts a)) as [Hok|Hbad];
      [|now rewrite (config_from_args_rejected _ _ _ _ Hparse Hbad)].
    destruct (determine_local_world_size (E := E) h (Args.nproc_per_node a) p)
      as [[[n|]|e] p1] eqn:Hn.
    + rewrite (Hres n)
        by (exists min_nodes, max_nodes; split; [reflexivity | split; [exact Hok | reflexivity]]).
      now rewrite bool_decide_eq_true_2.
    + now rewrite (config_from_args_environ_resolved _ _ _ _ None Hparse Hok)
        by now rewrite Hn.
    + eapply Hraise; [reflexivity | exact Hok | reflexivity].
  - intros n Hn Hle. rewrite (Hres n Hn).
    replace (n >? 1) with false by lia. now rewrite andb_false_r.
  - intros Hnone.
    destruct (parse_min_max_nnodes (E := E) (Args.nnodes a))
      as [[min_nodes max_nodes]|e] eqn:Hparse;
      [|now rewrite (config_from_args_unparsed _ _ _ Hparse)].
    destruct (bounds_ok_dec min_nodes max_nodes (Args.max_restarts a)) as [Hok|Hbad];
      [|now rewrite (config_from_args_rejected _ _ _ _ Hparse Hbad)].
    destruct (determine_local_world_size (E := E) h (Args.nproc_per_node a) p)
      as [[[n|]|e] p1] eqn:Hn.
    + destruct Hnone. exists n, min_nodes, max_nodes.
      split; [reflexivity | split; [exact Hok | reflexivity]].
    + now rewrite (config_from_args_environ_resolved _ _ _ _ None Hparse Hok)
        by now rewrite Hn.
    + eapply Hraise; [reflexivity | exact Hok | reflexivity].
Qed.

(** C6, amended. Once [args.nnodes], the two [assert]s,
    [args.nproc_per_node], [args.rdzv_conf], [args.redirects] and
    [args.tee] have all been accepted, [config_from_args] raises
    [ValueError] exactly when [no_python] is set together with [use_env]
    unset or with [module] set. Otherwise it returns the command made of
    [sys.executable, -u] (and -m when [module] is set) unless [no_python]
    is set, then the training script, then the --local_rank flag when
    [use_env] is unset, then the training script's arguments. *)
Theorem config_from_args_command (a : args) (p : process)
    (min_nodes max_nodes n : Z) (parsed : gmap string string) (redirects tee : std) :
  parse_min_max_nnodes (E := E) (Args.nnodes a) = Returns (min_nodes, max_nodes) ->
  0 < min_nodes <= max_nodes /\ Args.max_restarts a >= 0 ->
  (determine_local_world_size (E := E) h (Args.nproc_per_node a) p).1
  = Returns (Some n) ->
  _parse_rendezvous_config (Args.rdzv_conf a) = inr parsed ->
  Std_from_str (Args.redirects a) = inr redirects ->
  Std_from_str (Args.tee a) = inr tee ->
  let rejected :=
    Args.no_python a = true /\ (Args.use_env a = false \/ Args.module a = true) in
  ((config_from_args a p).1 = Raises ValueError <-> rejected) /\
  (~ rejected ->
     exists cfg,
       (config_from_args a p).1 =
         Returns (cfg,
           (if Args.no_python a then []
            else [sys_executable h; "-u"] ++ (if Args.module a then ["-m"] else []))
           ++ [Args.training_script a]
           ++ (if Args.use_env a then [] else ["--local_rank=" +:+ macros_local_rank])
           ++ Args.training_script_args a)).
Proof.
  intros Hparse Hok Hexit Hconf Hred Htee. cbv zeta.
  destruct (determine_local_world_size (E := E) h (Args.nproc_per_node a) p)
    as [o p1] eqn:Hn. simpl in Hexit. subst o.
  rewrite (config_from_args_resolved _ _ _ _ _ _ Hparse Hok Hn).
  assert (exists p2, after_omp (Some n) p1 = Some p2) as [p2 ->].
  { unfold after_omp. destruct (bool_decide _); eauto. }
  rewrite Hconf, Hred, Htee. unfold flags_rejected, command.
  destruct (Args.no_python a), (Args.use_env a), (Args.module a); simpl;
    (split; [split; [try discriminate; intuition discriminate | intuition discriminate]
            | intros Hrej; try (exfalso; apply Hrej; intuition discriminate); eauto]).
Qed.

End ConfigFacts.

(** *** The statements at work on concrete calls *)

Lemma config_from_args_asserts_witness :
  Sample.config_from Sample.cpu_box
    (Sample.options "4:2" "auto" "static" "" false false false true) Sample.fresh
  = (Raises AssertionError, Sample.fresh) /\
  (Sample.config_from Sample.cpu_box Sample.defaults Sample.fresh).1
  <> Raises AssertionError.
Proof.
  split.
  - apply (config_from_args_asserts Sample.parse_conf Sample.std_from_str
             Sample.local_rank Sample.cpu_box
             (Sample.options "4:2" "auto" "static" "" false false false true)
             Sample.fresh 4 2 eq_refl).
    simpl. lia.
  - apply (config_from_args_asserts Sample.parse_conf Sample.std_from_str
             Sample.local_rank Sample.cpu_box Sample.defaults Sample.fresh 1 1 eq_refl).
    simpl. lia.
Defined.


Lemma config_from_args_rdzv_configs_witness :
  exists cfg cmd p',
    Sample.config_from Sample.cpu_box
      (Sample.options "1:1" "2" "etcd" "timeout=30,rank=7" false false false true)
      Sample.fresh
    = (Returns (cfg, cmd), p') /\
    LaunchConfig.rdzv_configs cfg
    = <["timeout" := ConfStr "30"]> (<["rank" := ConfStr "7"]> ∅) /\
    LaunchConfig.rdzv_configs cfg !! "rank" <> Some (ConfInt 0).
Proof.
  destruct (Sample.config_from Sample.cpu_box
              (Sample.options "1:1" "2" "etcd" "timeout=30,rank=7" false false false true)
              Sample.fresh)
    as [[[cfg cmd]|e] p'] eqn:Hrun; [|discriminate Hrun].
  exists cfg, cmd, p'. split; [reflexivity|].
  destruct (config_from_args_rdzv_configs Sample.parse_conf Sample.std_from_str
              Sample.local_rank Sample.cpu_box _ _ p' cfg cmd Hrun)
    as (parsed & Hparsed & Hrank & Hother & _).
  injection Hparsed as <-.
  split.
  - rewrite Hother by discriminate. reflexivity.
  - intros H. apply Hrank in H. discriminate H.
Defined.

Lemma config_from_args_environ_witness :
  environ (Sample.config_from Sample.cpu_box Sample.defaults Sample.fresh).2
  = <["OMP_NUM_THREADS" := "1"]> ∅ /\
  environ (Sample.config_from Sample.cpu_box Sample.defaults
             {| environ := <["OMP_NUM_THREADS" := "6"]> ∅; trace := [] |}).2
  = <["OMP_NUM_THREADS" := "6"]> ∅ /\
  environ (Sample.config_from Sample.cpu_box
             (Sample.options "1:1" "1" "static" "" false false false true) Sample.fresh).2
  = ∅ /\
  environ (Sample.config_from Sample.cpu_box
             (Sample.options "1:1" "gpu" "static" "" false false false true) Sample.fresh).2
  = ∅.
Proof.
  refine (conj _ (conj _ (conj _ _))).
  - destruct (config_from_args_environ Sample.parse_conf Sample.std_from_str
                Sample.local_rank Sample.cpu_box Sample.defaults Sample.fresh)
      as (H & _).
    apply (H 8); [|reflexivity|lia].
    exists 1, 1. split; [reflexivity|]. split; [simpl; lia | reflexivity].
  - destruct (config_from_args_environ Sample.parse_conf Sample.std_from_str
                Sample.local_rank Sample.cpu_box Sample.defaults
                {| environ := <["OMP_NUM_THREADS" := "6"]> ∅; trace := [] |})
      as (_ & H & _).
    apply H. now exists "6".
  - destruct (config_from_args_environ Sample.parse_conf Sample.std_from_str
                Sample.local_rank Sample.cpu_box
                (Sample.options "1:1" "1" "static" "" false false false true) Sample.fresh)
      as (_ & _ & H & _).
    apply (H 1); [|lia].
    exists 1, 1. split; [reflexivity|]. split; [simpl; lia | reflexivity].
  - destruct (config_from_args_environ Sample.parse_conf Sample.std_from_str
                Sample.local_rank Sample.cpu_box
                (Sample.options "1:1" "gpu" "static" "" false false false true) Sample.fresh)
      as (_ & _ & _ & H).
    apply H. intros (n & min_nodes & max_nodes & _ & _ & Hn). discriminate Hn.
Defined.

Lemma config_from_args_command_witness :
  (Sample.config_from Sample.cpu_box
     (Sample.options "1:1" "2" "static" "" false true true true) Sample.fresh).1
  = Raises ValueError /\
  exists cfg,
    (Sample.config_from Sample.cpu_box
       (Sample.options "1:1" "2" "static" "" false true false false) Sample.fresh).1
    = Returns (cfg, ["/usr/bin/python3"; "-u"; "-m"; "train.py";
                     "--local_rank=${local_rank}"; "--epochs=2"]).
Proof.
  split.
  - destruct (config_from_args_command Sample.parse_conf Sample.std_from_str
                Sample.local_rank Sample.cpu_box
                (Sample.options "1:1" "2" "static" "" false true true true) Sample.fresh
                1 1 2 ∅ 0 0 eq_refl) as [H _];
      [simpl; lia | reflexivity ..|].
    apply H. split; [reflexivity | right; reflexivity].
  - destruct (config_from_args_command Sample.parse_conf Sample.std_from_str
                Sample.local_rank Sample.cpu_box
                (Sample.options "1:1" "2" "static" "" false true false false) Sample.fresh
                1 1 2 ∅ 0 0 eq_refl) as [_ H];
      [simpl; lia | reflexivity ..|].
    apply H. intros [H' _]. discriminate H'.
Defined.

(** C6 as first written fails twice over. [ValueError] also comes out of
    the resolution of the worker count, with [no_python] unset; and with
    [use_env] unset the command returned has the --local_rank flag between
    the training script and its arguments, so it does not end with the
    script followed by its arguments. *)
Lemma config_from_args_command_counterexample :
  (let a := Sample.options "1:1" "tpu" "static" "" false false false true in
   (Sample.config_from Sample.cpu_box a Sample.fresh).1 = Raises ValueError /\
   Args.no_python a = false) /\
  (let a := Sample.options "1:1" "2" "static" "" false false false false in
   exists cfg cmd,
     (Sample.config_from Sample.cpu_box a Sample.fresh).1 = Returns (cfg, cmd) /\
     ~ exists front, cmd = front ++ Args.training_script a :: Args.training_script_args a).
Proof.
  split; [split; reflexivity|].
  cbv zeta. eexists _, _. split; [reflexivity|].
  intros [front H]. simpl in H.
  do 5 (destruct front as [|? front]; [discriminate H | injection H as _ H]).
  destruct front; discriminate H.
Defined.

(** ** run *)

Section RunFacts.

Context {E float std : Type}.
Variable _parse_rendezvous_config : string -> E + gmap string string.
Variable Std_from_str : string -> E + std.
Variable macros_local_rank : string.
Variable elastic_launch : LaunchConfig.t float std -> string -> list string -> option E.
Variable h : host.

Abbreviation run_args :=
  (run _parse_rendezvous_config Std_from_str macros_local_rank elastic_launch h).
Abbreviation config_of :=
  (config_from_args _parse_rendezvous_config Std_from_str macros_local_rank h).

(** X4. In standalone mode the embedded server is started first and the
    three rendezvous arguments are overwritten, whatever they were. Then
    it is the exit of [config_from_args] that decides: when it returns,
    the launch is inside the [try] and the server is stopped however the
    launch ends; when it raises, [run] ends there and then, ahead of the
    [try], and nothing stops the server. *)
Lemma run_standalone (a : Args.t float) (p : process) :
  Args.standalone a = true ->
  let '(o, a', p') := run_args a p in
  let p0 :=
    Process (environ p)
      (trace p ++ [etcd_server_start;
                   log_info_rendezvous "etcd" (etcd_endpoint h) (uuid4 h)]) in
  Args.rdzv_backend a' = "etcd" /\
  Args.rdzv_endpoint a' = etcd_endpoint h /\
  Args.rdzv_id a' = uuid4 h /\
  match config_of a' p0 with
  | (Returns _, p1) => exists evs, trace p' = trace p1 ++ evs ++ [etcd_server_stop]
  | (Raises e, p1) =>
      o = Raises e /\ p' = p1 /\
      exists evs, trace p' = trace p0 ++ evs /\ quiet evs = true
  end.
Proof.
  intros Hs. unfold run. rewrite Hs. cbv zeta. simpl. rewrite <- app_assoc. simpl.
  match goal with
  | |- context [config_from_args ?f ?g ?m ?hh ?aa ?pp] =>
      destruct (config_from_args f g m hh aa pp) as [[[cfg cmd]|e] p1] eqn:Hcfg
  end.
  - unfold try_finally, bind, emit, ret, raise.
    destruct cmd as [|entrypoint argv]; simpl;
      [|destruct (elastic_launch cfg entrypoint argv)]; simpl;
      rewrite Hcfg; repeat (split; [reflexivity|]).
    + now exists [].
    + rewrite <- app_assoc. eauto.
    + rewrite <- app_assoc. eauto.
  - simpl. rewrite Hcfg. repeat (split; [reflexivity|]).
    match type of Hcfg with
    | config_from_args ?f ?g ?m ?hh ?aa ?pp = _ =>
        destruct (config_from_args_quiet f g m hh aa pp) as (evs & Hevs & Hq)
    end.
    rewrite Hcfg in Hevs. simpl in Hevs. eauto.
Qed.

End RunFacts.

(** C2, on a machine without CUDA, for --standalone --nproc_per_node=gpu.
    The embedded server is started and the three rendezvous arguments are
    overwritten, [config_from_args] raises [ValueError], and [run] ends
    with the server started and never stopped: the [finally] that stops it
    only guards the launch, whereas the claim has the server stopped on
    every exit of [run]. *)
Theorem run_standalone_server_left_running :
  let a := Sample.options "1:1" "gpu" "static" "" true false false true in
  let '(o, a', p') := Sample.run_with Sample.launch_ok Sample.cpu_box a Sample.fresh in
  o = Raises ValueError /\
  (Args.rdzv_backend a', Args.rdzv_endpoint a', Args.rdzv_id a')
  = ("etcd", "localhost:2379", "6f1c2a9e-0b1d-4c57-9a43-2f0e8d7b5a10") /\
  trace p' = [etcd_server_start;
              log_info_rendezvous "etcd" "localhost:2379"
                "6f1c2a9e-0b1d-4c57-9a43-2f0e8d7b5a10";
              logging_info_using "gpu"] /\
  etcd_server_stop ∉ trace p'.
Proof.
  cbv zeta. vm_compute.
  repeat (split; [reflexivity|]).
  intros Hin. repeat (apply elem_of_cons in Hin as [Hin|Hin]; [discriminate Hin|]).
  now apply elem_of_nil in Hin.
Qed.

(** The same call when the worker count can be resolved: the server is
    stopped whether the launch returns or raises. *)
Example run_standalone_server_stopped :
  let a := Sample.options "1:1" "2" "static" "" true false false true in
  trace (Sample.run_with Sample.launch_ok Sample.cpu_box a Sample.fresh).2
  = [etcd_server_start;
     log_info_rendezvous "etcd" "localhost:2379" "6f1c2a9e-0b1d-4c57-9a43-2f0e8d7b5a10";
     logging_info_using "2"; print_omp_num_threads 1;
     elastic_launch_call "/usr/bin/python3" ["-u"; "train.py"; "--epochs=2"];
     etcd_server_stop] /\
  (Sample.run_with Sample.launch_fails Sample.cpu_box a Sample.fresh)
  = (Raises (LibraryError tt),
     (Sample.run_with Sample.launch_ok Sample.cpu_box a Sample.fresh).1.2,
     (Sample.run_with Sample.launch_ok Sample.cpu_box a Sample.fresh).2).
Proof. split; reflexivity. Qed.

(** ** Rank assignment *)

Section RankFacts.

Import RankAssigner.
Local Open Scope nat_scope.

Variable ordered_node_list : list node.
Variable L : nat.

Lemma global_ranks_at_block (p : nat) :
  p < length ordered_node_list ->
  global_ranks_at ordered_node_list L p = seq (p * L) L.
Proof.
  intros Hp. unfold global_ranks_at, assign.
  destruct (lookup_lt_is_Some_2 ordered_node_list p Hp) as [me ->]. simpl.
  rewrite <- list_fmap_compose.
  replace (seq (p * L) L) with (seq (p * L + 0) L) by (f_equal; lia).
  now rewrite <- fmap_add_seq.
Qed.

Lemma flat_map_blocks (f : nat -> list nat) (n : nat) :
  (forall p, p < n -> f p = seq (p * L) L) ->
  flat_map f (seq 0 n) = seq 0 (n * L).
Proof.
  induction n as [|n IH]; intros Hf; [reflexivity|].
  rewrite seq_S, flat_map_app. simpl.
  rewrite IH by (intros p Hp; apply Hf; lia).
  rewrite Hf, app_nil_r by lia.
  now rewrite <- seq_app, Nat.add_comm.
Qed.

(** Node after node, the global ranks count up from 0. *)
Lemma all_global_ranks_seq :
  all_global_ranks ordered_node_list L = seq 0 (length ordered_node_list * L).
Proof.
  unfold all_global_ranks. apply flat_map_blocks.
  intros p Hp. now apply global_ranks_at_block.
Qed.

(** C7. For [n] joined nodes in order and [L] workers on each: the node
    at position [p] has [group_rank = p] and [world_size = n * L], and
    its [L] workers have, the [i]-th of them, [global_rank = p*L + i] and
    [local_rank = i]; the global ranks of all nodes together are a
    permutation of [0, n*L) in which no rank occurs twice. *)
Theorem rank_assignment :
  let n := length ordered_node_list in
  (forall p, p < n ->
     exists a,
       assign ordered_node_list p L = Some a /\
       group_rank a = p /\
       world_size a = n * L /\
       length (workers a) = L /\
       forall i, i < L ->
         exists w,
           workers a !! i = Some w /\
           global_rank w = p * L + i /\
           local_rank w = i) /\
  all_global_ranks ordered_node_list L ≡ₚ seq 0 (n * L) /\
  NoDup (all_global_ranks ordered_node_list L).
Proof.
  cbv zeta. split; [|rewrite all_global_ranks_seq; split; [reflexivity | apply NoDup_seq]].
  intros p Hp. unfold assign.
  destruct (lookup_lt_is_Some_2 ordered_node_list p Hp) as [me ->].
  eexists. split; [reflexivity|]. simpl.
  repeat (split; [reflexivity|]).
  split; [now rewrite length_fmap, length_seq|].
  intros i Hi. rewrite list_lookup_fmap, (lookup_seq_lt 0 L i Hi). simpl.
  eexists. split; [reflexivity|]. now split.
Qed.

End RankFacts.

(** Two nodes with two workers each, joined in the order A, B. *)
Lemma rank_assignment_witness :
  let nodes := [RankAssigner.Node "A" "trainer"; RankAssigner.Node "B" "trainer"] in
  exists b,
    RankAssigner.assign nodes 1 2 = Some b /\
    RankAssigner.group_rank b = 1%nat /\
    RankAssigner.world_size b = 4%nat /\
    RankAssigner.global_rank <$> RankAssigner.workers b = [2; 3]%nat /\
    RankAssigner.local_rank <$> RankAssigner.workers b = [0; 1]%nat.
Proof.
  cbv zeta.
  destruct (rank_assignment
              [RankAssigner.Node "A" "trainer"; RankAssigner.Node "B" "trainer"] 2)
    as [H _].
  destruct (H 1%nat) as (b & Hb & Hg & Hw & Hlen & Hi); [simpl; lia|].
  exists b. split; [exact Hb|]. split; [exact Hg|]. split; [exact Hw|].
  injection Hb as <-. split; reflexivity.
Defined.

(** ** The restart budget *)

Section RestartFacts.

Import RestartController.
Local Open Scope nat_scope.

Abbreviation used c := (restarts_used (restart_state c)).
Abbreviation budget c := (max_restarts (restart_state c)).

Lemma step_budget (c : controller) (o : observation) :
  budget (step c o) = budget c.
Proof. unfold step, teardown. now destruct (phase c), o. Qed.

(** One more restart for a teardown, none for anything else. *)
Lemma step_used (c : controller) (o : observation) :
  used (step c o) = used c + (if tears_down c o then 1 else 0).
Proof.
  unfold step, tears_down, teardown.
  destruct (phase c), o; simpl; lia.
Qed.

Lemma run_budget (obs : list observation) (c : controller) :
  budget (run c obs) = budget c.
Proof.
  revert c. induction obs as [|o obs IH]; intros c; [reflexivity|].
  unfold run in *. simpl. now rewrite IH, step_budget.
Qed.

Lemma run_used (obs : list observation) (c : controller) :
  used (run c obs) = used c + teardowns c obs.
Proof.
  revert c. induction obs as [|o obs IH]; intros c; simpl; [unfold run; simpl; lia|].
  unfold run in *. simpl. rewrite IH, step_used. lia.
Qed.

Lemma step_within_budget (c : controller) (o : observation) :
  within_budget c -> within_budget (step c o).
Proof.
  unfold within_budget, step, teardown. intros [Hle Hlive].
  destruct (phase c) eqn:Hc, o; simpl; try (split; [lia | intros; apply Hlive; congruence]);
    try (split; [lia | congruence]);
    (assert (used c <= budget c) as Hu by (apply Hlive; congruence));
    destruct (Nat.ltb_spec (budget c) (S (used c))); simpl; split; try lia; congruence.
Qed.

Lemma run_within_budget (obs : list observation) (c : controller) :
  within_budget c -> within_budget (run c obs).
Proof.
  revert c. induction obs as [|o obs IH]; intros c Hc; [exact Hc|].
  unfold run in *. simpl. now apply IH, step_within_budget.
Qed.

Lemma step_terminal (c : controller) (o : observation) :
  phase c = FAILED_FATAL \/ phase c = SUCCEEDED -> step c o = c.
Proof. unfold step. intros [-> | ->]; now destruct o. Qed.

Lemma run_terminal (obs : list observation) (c : controller) :
  phase c = FAILED_FATAL \/ phase c = SUCCEEDED -> run c obs = c.
Proof.
  induction obs as [|o obs IH]; intros Hc; [reflexivity|].
  unfold run in *. simpl. rewrite (step_terminal _ _ Hc). now apply IH.
Qed.

(** The ways into FAILED_FATAL: the counter goes past the budget, or a
    negotiation fails for good. *)
Lemma run_fatal (obs : list observation) (c : controller) :
  within_budget c -> phase c <> FAILED_FATAL ->
  (phase (run c obs) = FAILED_FATAL
   <-> budget c < used (run c obs) \/ negotiation_failed c obs = true).
Proof.
  revert c. induction obs as [|o obs IH]; intros c Hw Hlive.
  - unfold run. simpl. destruct Hw as [_ Hw]. specialize (Hw Hlive).
    split; [congruence | intros [H|H]; [lia | discriminate]].
  - change (run c (o :: obs)) with (run (step c o) obs).
    destruct (decide (phase (step c o) = FAILED_FATAL)) as [Hf|Hf].
    + rewrite (run_terminal obs (step c o)) by now left.
      split; [intros _ | now intros _].
      revert Hf. unfold step, teardown. simpl.
      destruct (phase c) eqn:Hc, o; simpl; try congruence; try (now right);
        destruct (Nat.ltb_spec (budget c) (S (used c))); simpl; try congruence;
        intros _; left; lia.
    + rewrite (IH (step c o) (step_within_budget _ _ Hw) Hf), step_budget.
      assert (negotiation_failed c (o :: obs) = negotiation_failed (step c o) obs)
        as ->; [|reflexivity].
      simpl. revert Hf. unfold step. destruct (phase c), o; simpl; congruence.
Qed.

(** What a teardown leaves: FAILED_FATAL if the counter it has just
    incremented is past the budget, NEGOTIATING if it is not. *)
Lemma step_teardown (c : controller) (o : observation) :
  tears_down c o = true ->
  (phase (step c o) = FAILED_FATAL <-> budget c < used (step c o)) /\
  (phase (step c o) = NEGOTIATING <-> used (step c o) <= budget c).
Proof.
  unfold tears_down, step, teardown.
  destruct (phase c), o; try discriminate; intros _; simpl;
    destruct (Nat.ltb_spec (budget c) (S (used c))); simpl;
    (split; split; first [lia | congruence | reflexivity]).
Qed.

(** [j] failing rounds within the budget bring the controller back to
    NEGOTIATING with [j] more restarts used. *)
Lemma run_failing_cycles (j u k : nat) (rest : list observation) :
  u + j <= k ->
  run {| phase := NEGOTIATING;
         restart_state := {| restarts_used := u; max_restarts := k |} |}
      (cycles j failing_cycle ++ rest)
  = run {| phase := NEGOTIATING;
           restart_state := {| restarts_used := u + j; max_restarts := k |} |}
        rest.
Proof.
  revert u. induction j as [|j IH]; intros u Hu; simpl.
  - now rewrite Nat.add_0_r.
  - unfold run in *. simpl. unfold step at 1 2 3. simpl. unfold teardown. simpl.
    destruct (Nat.ltb_spec k (S u)); [lia|].
    rewrite IH by lia. do 3 f_equal. lia.
Qed.

(** C8. In a run of the controller [restarts_used] starts at 0 and goes
    up by exactly 1 with each teardown, whether a worker failed or the
    round was superseded, and by nothing else, so that it counts the
    teardowns; it never gets further than one past [max_restarts]. Each
    teardown in the run leaves the controller in FAILED_FATAL if the
    counter it has incremented is past [max_restarts], and back in
    NEGOTIATING if it is not: the budget ends the run exactly when
    [restarts_used] first exceeds [max_restarts], and a counter past the
    budget is found in FAILED_FATAL only. With [max_restarts = k], [k]
    failing rounds and then a clean one end in SUCCEEDED with
    [restarts_used = k], and one more failing round ends in
    FAILED_FATAL. (The one other way into FAILED_FATAL, a negotiation
    that fails, uses no restart.) *)
Theorem restart_budget (k : nat) (obs : list observation) :
  used (init k) = 0 /\
  (forall c o, used (step c o) = used c + (if tears_down c o then 1 else 0)) /\
  (forall c, step c AnyFailed = step c Superseded) /\
  used (run (init k) obs) = teardowns (init k) obs /\
  used (run (init k) obs) <= S k /\
  (forall o,
     tears_down (run (init k) obs) o = true ->
     (phase (run (init k) (obs ++ [o])) = FAILED_FATAL
      <-> k < used (run (init k) (obs ++ [o]))) /\
     (phase (run (init k) (obs ++ [o])) = NEGOTIATING
      <-> used (run (init k) (obs ++ [o])) <= k) /\
     used (run (init k) obs) <= k) /\
  (k < used (run (init k) obs) -> phase (run (init k) obs) = FAILED_FATAL) /\
  (phase (run (init k) obs) = FAILED_FATAL ->
     k < used (run (init k) obs) \/ negotiation_failed (init k) obs = true) /\
  run (init k) (ConfigRead :: cycles k failing_cycle ++ clean_cycle)
  = {| phase := SUCCEEDED;
       restart_state := {| restarts_used := k; max_restarts := k |} |} /\
  run (init k) (ConfigRead :: cycles (S k) failing_cycle ++ clean_cycle)
  = {| phase := FAILED_FATAL;
       restart_state := {| restarts_used := S k; max_restarts := k |} |}.
Proof.
  assert (within_budget (init k)) as Hinit by (unfold within_budget; simpl; split; lia).
  assert (phase (init k) <> FAILED_FATAL) as Hlive by discriminate.
  refine (conj eq_refl (conj step_used (conj _ (conj _ (conj _
            (conj _ (conj _ (conj _ (conj _ _))))))))).
  - intros c. unfold step. now destruct (phase c).
  - now rewrite run_used.
  - pose proof (run_within_budget obs _ Hinit) as [H _].
    now rewrite run_budget in H.
  - intros o Ho.
    assert (run (init k) (obs ++ [o]) = step (run (init k) obs) o) as ->
      by (unfold run; now rewrite fold_left_app).
    destruct (step_teardown _ _ Ho) as [Hf Hn].
    rewrite run_budget in Hf, Hn. simpl in Hf, Hn.
    split; [exact Hf|]. split; [exact Hn|].
    pose proof (run_within_budget obs _ Hinit) as [_ H].
    rewrite run_budget in H. simpl in H. apply H.
    unfold tears_down in Ho. destruct (phase (run (init k) obs)); discriminate.
  - intros H. apply (run_fatal obs (init k) Hinit Hlive). now left.
  - intros H. now apply (run_fatal obs (init k) Hinit Hlive).
  - change (run (init k) (ConfigRead :: ?l))
      with (run {| phase := NEGOTIATING;
                   restart_state := {| restarts_used := 0; max_restarts := k |} |} l).
    now rewrite run_failing_cycles by lia.
  - change (run (init k) (ConfigRead :: ?l))
      with (run {| phase := NEGOTIATING;
                   restart_state := {| restarts_used := 0; max_restarts := k |} |} l).
    replace (cycles (S k) failing_cycle) with (cycles k failing_cycle ++ failing_cycle).
    + rewrite <- app_assoc, run_failing_cycles by lia.
      unfold run, step, teardown. cbn. now rewrite Nat.leb_refl.
    + clear. induction k as [|j IH]; simpl; [reflexivity|].
      simpl in IH. now rewrite <- IH.
Qed.

End RestartFacts.

(** Three restarts allowed: three failing rounds and a clean one succeed;
    of four failing rounds, the fourth teardown is the one that ends the
    run, the third leaving the controller negotiating. *)
Lemma restart_budget_witness :
  let three_then_clean :=
    RestartController.ConfigRead
      :: RestartController.cycles 3 RestartController.failing_cycle
      ++ RestartController.clean_cycle in
  let three_failures :=
    RestartController.ConfigRead
      :: RestartController.cycles 3 RestartController.failing_cycle in
  let running_again :=
    three_failures
      ++ [RestartController.RendezvousComplete; RestartController.StillRunning] in
  RestartController.phase (RestartController.run (RestartController.init 3) three_then_clean)
  = RestartController.SUCCEEDED /\
  RestartController.phase (RestartController.run (RestartController.init 3) three_failures)
  <> RestartController.FAILED_FATAL /\
  RestartController.phase
    (RestartController.run (RestartController.init 3)
       (running_again ++ [RestartController.AnyFailed]))
  = RestartController.FAILED_FATAL.
Proof.
  cbv zeta. refine (conj _ (conj _ _)).
  - destruct (restart_budget 3 []) as (_ & _ & _ & _ & _ & _ & _ & _ & H & _).
    now rewrite H.
  - destruct (restart_budget 3
                (RestartController.ConfigRead
                   :: RestartController.cycles 3 RestartController.failing_cycle))
      as (_ & _ & _ & _ & _ & _ & _ & H & _).
    intros Hf. destruct (H Hf) as [Hlt | Hneg];
      [vm_compute in Hlt; lia | discriminate Hneg].
  - destruct (restart_budget 3
                ((RestartController.ConfigRead
                    :: RestartController.cycles 3 RestartController.failing_cycle)
                 ++ [RestartController.RendezvousComplete;
                     RestartController.StillRunning]))
      as (_ & _ & _ & _ & _ & H & _).
    destruct (H RestartController.AnyFailed eq_refl) as [Hf _].
    apply Hf. vm_compute. lia.
Defined.

(** The last scenario of section 8: a rendezvous that times out at the
    first negotiation ends the run in FAILED_FATAL with no restart used;
    so does a backend that stays unavailable. *)
Example run_negotiation_fails :
  let timeout :=
    RestartController.run (RestartController.init 3)
      [RestartController.ConfigRead; RestartController.RendezvousTimeout] in
  let unavailable :=
    RestartController.run (RestartController.init 3)
      [RestartController.ConfigRead; RestartController.BackendUnavailable] in
  RestartController.phase timeout = RestartController.FAILED_FATAL /\
  RestartController.restarts_used (RestartController.restart_state timeout) = 0%nat /\
  RestartController.phase unavailable = RestartController.FAILED_FATAL /\
  RestartController.restarts_used (RestartController.restart_state unavailable) = 0%nat.
Proof. cbv zeta. simpl. repeat split. Qed.

(** * Further properties of the launcher *)

(** ** Integers written out and read back *)

Section Decimal.

(** The characters of a decimal numeral are digits. *)
Lemma uint_chars (d : Decimal.uint) :
  Forall (fun c => (48 <= nat_of_ascii c <= 57)%nat)
    (list_ascii_of_string (NilEmpty.string_of_uint d)).
Proof.
  induction d; simpl; [constructor | ..];
    (constructor; [split; apply Nat.leb_le; reflexivity | exact IHd]).
Qed.

Lemma digits_acc (d : Decimal.uint) (acc : positive) :
  Py.digits (Z.pos acc) false (list_ascii_of_string (NilEmpty.string_of_uint d))
  = Some (Z.pos (Pos.of_uint_acc d acc)).
Proof.
  revert acc. induction d; intros acc; simpl; [reflexivity | ..];
    unfold Py.is_underscore, Py.digit; simpl;
    rewrite <- IHd; f_equal; lia.
Qed.

Lemma digits_uint (d : Decimal.uint) :
  Py.digits 0 false (list_ascii_of_string (NilEmpty.string_of_uint d))
  = Some (Z.of_uint d).
Proof.
  unfold Z.of_uint.
  induction d; simpl; [reflexivity | ..];
    unfold Py.is_underscore, Py.digit; simpl;
    first [exact IHd | apply digits_acc].
Qed.

Lemma lstrip_head (c : ascii) (l : list ascii) :
  Py.isspace c = false -> Py.lstrip (c :: l) = c :: l.
Proof. intros H. simpl. now rewrite H. Qed.

(** Nothing is stripped from a string without blanks. *)
Lemma strip_no_blank (l : list ascii) :
  Forall (fun c => Py.isspace c = false) l -> Py.strip l = l.
Proof.
  intros Hl. unfold Py.strip.
  assert (forall l', Forall (fun c => Py.isspace c = false) l' -> Py.lstrip l' = l') as Hls.
  { intros [|c l'] H; [reflexivity|]. apply lstrip_head. now inversion H. }
  rewrite (Hls l Hl), (Hls (rev l)) by now apply Forall_rev.
  apply rev_involutive.
Qed.

Lemma digit_not_blank (c : ascii) :
  (48 <= nat_of_ascii c <= 57)%nat -> Py.isspace c = false.
Proof.
  intros H. unfold Py.isspace.
  destruct (Nat.leb_spec 9 (nat_of_ascii c)), (Nat.leb_spec (nat_of_ascii c) 13),
    (Nat.eqb_spec (nat_of_ascii c) 32);
    simpl; try reflexivity; lia.
Qed.

(** On ASCII bytes, [to_ascii] after decoding changes nothing. *)
Lemma to_ascii_plain (l : list ascii) :
  Forall (fun c => (nat_of_ascii c < 127)%nat) l ->
  (fun cps : list N => Py.to_ascii <$> cps) <$> Py.utf8 0 0 0 l = Some l.
Proof.
  induction l as [|c l IH]; intros Hl; [reflexivity|].
  inversion Hl as [|? ? Hc Hl']; subst. specialize (IH Hl').
  unfold nat_of_ascii in Hc. simpl.
  destruct (N.ltb_spec (N_of_ascii c) 128); [|lia].
  destruct (Py.utf8 0 0 0 l) as [cps|]; [|discriminate IH].
  cbn in *. injection IH as IH. rewrite IH. do 2 f_equal.
  unfold Py.to_ascii.
  destruct (N.ltb_spec (N_of_ascii c) 127); [|lia].
  apply ascii_N_embedding.
Qed.

(** [int] on a string of ASCII bytes. *)
Lemma int_of_ascii (s : string) :
  Forall (fun c => (nat_of_ascii c < 127)%nat) (list_ascii_of_string s) ->
  Py.int s =
    match Py.strip (list_ascii_of_string s) with
    | [] => None
    | c :: l =>
        if (nat_of_ascii c =? 45)%nat then Z.opp <$> Py.literal l
        else if (nat_of_ascii c =? 43)%nat then Py.literal l
        else Py.literal (c :: l)
    end.
Proof.
  intros Hs. pose proof (to_ascii_plain _ Hs) as H.
  unfold Py.int, Py.code_points.
  destruct (Py.utf8 0 0 0 (list_ascii_of_string s)) as [cps|]; [|discriminate H].
  simpl in H. injection H as H. now rewrite H.
Qed.

(** The literal of a numeral that is not empty. *)
Lemma literal_uint (d : Decimal.uint) :
  d <> Decimal.Nil ->
  Py.literal (list_ascii_of_string (NilEmpty.string_of_uint d)) = Some (Z.of_uint d).
Proof.
  intros Hd. pose proof (digits_uint d) as H. pose proof (uint_chars d) as Hc.
  unfold Py.literal.
  destruct (list_ascii_of_string (NilEmpty.string_of_uint d)) as [|c l] eqn:Hl.
  - destruct d; simpl in Hl; congruence.
  - inversion Hc as [|? ? Hc0 _]; subst.
    unfold Py.is_underscore.
    destruct (Nat.eqb_spec (nat_of_ascii c) 95); [lia | exact H].
Qed.

Lemma int_uint (d : Decimal.uint) :
  d <> Decimal.Nil ->
  Py.int (NilEmpty.string_of_uint d) = Some (Z.of_uint d) /\
  Py.int (String "-" (NilEmpty.string_of_uint d)) = Some (- Z.of_uint d).
Proof.
  intros Hd. pose proof (literal_uint d Hd) as H. pose proof (uint_chars d) as Hc.
  assert (Forall (fun c => Py.isspace c = false)
            (list_ascii_of_string (NilEmpty.string_of_uint d))) as Hb.
  { eapply Forall_impl; [exact Hc|]. intros c. apply digit_not_blank. }
  assert (Forall (fun c => (nat_of_ascii c < 127)%nat)
            (list_ascii_of_string (NilEmpty.string_of_uint d))) as Ha.
  { eapply Forall_impl; [exact Hc|]. intros c [_ Hle].
    apply Nat.le_lt_trans with 57%nat; [exact Hle | apply Nat.ltb_lt; reflexivity]. }
  split.
  - rewrite int_of_ascii by exact Ha.
    rewrite strip_no_blank by exact Hb.
    destruct (list_ascii_of_string (NilEmpty.string_of_uint d)) as [|c l] eqn:Hl;
      [discriminate H|].
    inversion Hc as [|? ? Hc0 _]; subst.
    destruct (Nat.eqb_spec (nat_of_ascii c) 45); [lia|].
    destruct (Nat.eqb_spec (nat_of_ascii c) 43); [lia|]. exact H.
  - rewrite int_of_ascii
      by (simpl; constructor; [apply Nat.ltb_lt; reflexivity | exact Ha]).
    simpl list_ascii_of_string.
    rewrite strip_no_blank by (constructor; [reflexivity | exact Hb]).
    simpl. now rewrite H.
Qed.

(** Reading back what [str] wrote gives the integer again. *)
Lemma int_str (n : Z) : Py.int (Py.str n) = Some n.
Proof.
  unfold Py.str. destruct n as [|p|p]; [reflexivity | ..]; simpl.
  - pose proof (Unsigned.to_uint_nonnil p) as Hd.
    destruct (int_uint _ Hd) as [H _].
    unfold NilZero.string_of_uint.
    destruct (Pos.to_uint p) eqn:Hp; try congruence;
      rewrite H; unfold Z.of_uint; rewrite <- Hp, Unsigned.of_to; reflexivity.
  - pose proof (Unsigned.to_uint_nonnil p) as Hd.
    destruct (int_uint _ Hd) as [_ H].
    unfold NilZero.string_of_uint.
    destruct (Pos.to_uint p) eqn:Hp; try congruence;
      rewrite H; unfold Z.of_uint; rewrite <- Hp, Unsigned.of_to; reflexivity.
Qed.

(** A character that does not occur in a string. *)
Lemma count_absent (c : ascii) (s : string) :
  Forall (fun c' => c' <> c) (list_ascii_of_string s) -> Py.count c s = 0%nat.
Proof.
  induction s as [|c' s IH]; simpl; [reflexivity|].
  intros H. inversion H as [|? ? Hc Hs]; subst.
  rewrite (IH Hs). now destruct (Ascii.eqb_spec c' c).
Qed.

(** [str] writes no colon. *)
Lemma count_colon_str (n : Z) : Py.count ":" (Py.str n) = 0%nat.
Proof.
  assert (forall d, Py.count ":" (NilEmpty.string_of_uint d) = 0%nat) as Hu.
  { intros d. apply count_absent. eapply Forall_impl; [apply uint_chars|].
    intros c Hc ->. destruct Hc as [_ Hc]. apply Nat.leb_le in Hc. discriminate Hc. }
  assert (forall d, Py.count ":" (NilZero.string_of_uint d) = 0%nat) as Hz.
  { intros d. unfold NilZero.string_of_uint. destruct d; try apply Hu. reflexivity. }
  unfold Py.str. destruct n as [|p|p]; simpl; [reflexivity | apply Hz|].
  apply Hz.
Qed.

End Decimal.

(** ** parse_min_max_nnodes, the other way round *)

Section NnodesMore.

Context {E : Type}.

(** X1. Every pair of integers written as MIN:MAX is read back as that
    pair, and a single integer as that integer twice. No sign and no order
    is asked of them here. *)
Theorem parse_min_max_nnodes_str (a b : Z) :
  parse_min_max_nnodes (E := E) (Py.str a +:+ ":" +:+ Py.str b) = Returns (a, b) /\
  parse_min_max_nnodes (E := E) (Py.str a) = Returns (a, a).
Proof.
  unfold parse_min_max_nnodes, to_int. split.
  - change (Py.str a +:+ ":" +:+ Py.str b) with (Py.str a +:+ String ":" (Py.str b)).
    rewrite (split_at_sep _ _ _ (count_colon_str a)).
    rewrite (split_without_sep _ _ (count_colon_str b)).
    now rewrite !int_str.
  - rewrite (split_without_sep _ _ (count_colon_str a)). now rewrite int_str.
Qed.

(** What [parse_min_max_nnodes] raises goes with the number of colons. *)
Lemma parse_min_max_nnodes_raises (nnodes : string) (e : exn E) :
  parse_min_max_nnodes (E := E) nnodes = Raises e ->
  (e = RuntimeError /\ (2 <= Py.count ":" nnodes)%nat) \/
  (e = ValueError /\ (Py.count ":" nnodes <= 1)%nat).
Proof.
  pose proof (length_split ":" nnodes) as Hlen.
  unfold parse_min_max_nnodes, to_int.
  destruct (Py.split ":" nnodes) as [|a0 [|a1 [|a2 arr]]]; simpl in Hlen.
  - discriminate Hlen.
  - destruct (Py.int a0); intros [= <-]. right. split; [reflexivity | lia].
  - destruct (Py.int a0); [destruct (Py.int a1)|]; intros [= <-];
      right; (split; [reflexivity | lia]).
  - intros [= <-]. left. split; [reflexivity | lia].
Qed.

(** X2. [parse_min_max_nnodes] raises [RuntimeError] exactly when the
    string has two or more colons; the only other exception it lets out is
    the [ValueError] of [int]; and when it returns, the string has at most
    one colon, the two bounds being equal when it has none. *)
Theorem parse_min_max_nnodes_exits (nnodes : string) :
  (parse_min_max_nnodes (E := E) nnodes = Raises RuntimeError
   <-> (2 <= Py.count ":" nnodes)%nat) /\
  (forall e, parse_min_max_nnodes (E := E) nnodes = Raises e ->
     e = ValueError \/ e = RuntimeError) /\
  (forall min_nodes max_nodes,
     parse_min_max_nnodes (E := E) nnodes = Returns (min_nodes, max_nodes) ->
     (Py.count ":" nnodes <= 1)%nat /\
     (Py.count ":" nnodes = 0%nat -> min_nodes = max_nodes)).
Proof.
  pose proof (length_split ":" nnodes) as Hlen.
  unfold parse_min_max_nnodes, to_int.
  destruct (Py.split ":" nnodes) as [|a0 [|a1 [|a2 arr]]]; simpl in Hlen.
  - discriminate Hlen.
  - destruct (Py.int a0); (split; [split; [discriminate | lia]|]);
      (split; [intros e [= <-]; auto | intros ? ? [= <- <-]; split; [lia | reflexivity]])
      || (split; [intros e [= <-]; auto | discriminate]).
  - destruct (Py.int a0); [destruct (Py.int a1)|];
      (split; [split; [discriminate | lia]|]);
      (split; [discriminate | intros ? ? [= <- <-]; split; lia])
      || (split; [intros e [= <-]; auto | discriminate]).
  - split; [split; [lia | reflexivity]|].
    split; [intros e [= <-]; auto | discriminate].
Qed.

End NnodesMore.

(** ** determine_local_world_size on a written integer *)

Section WorldSizeMore.

Context {E : Type}.
Variable h : host.

(** X3. For a worker count written as an integer, of either sign, the
    function returns that integer and logs the one record of its argument;
    the machine is not looked at, and the environment is left alone. *)
Theorem determine_local_world_size_str (n : Z) (p : process) :
  determine_local_world_size (E := E) h (Py.str n) p
  = (Returns (Some n),
     Process (environ p) (trace p ++ [logging_info_using (Py.str n)])).
Proof.
  unfold determine_local_world_size, bind, emit, ret. simpl.
  now rewrite int_str.
Qed.

(** What is logged, by exit: a string [int] reads or one that ends in
    [ValueError] leaves the first record only; cpu, gpu and auto, when
    they resolve, leave a second one with the count returned. *)
Lemma determine_local_world_size_records (s : string) (p : process) :
  let '(o, p') := determine_local_world_size (E := E) h s p in
  environ p' = environ p /\
  match o with
  | Raises _ => trace p' = trace p ++ [logging_info_using s]
  | Returns n =>
      match Py.int s with
      | Some _ => trace p' = trace p ++ [logging_info_using s]
      | None =>
          exists device_type,
            trace p' = trace p ++ [logging_info_using s;
                                   log_info_setting s n (cpu_count h) device_type]
      end
  end.
Proof.
  unfold determine_local_world_size, bind, emit, ret, raise. simpl.
  destruct (Py.int s); [now split|].
  destruct (String.eqb s "cpu"); simpl;
    [split; [reflexivity | rewrite <- app_assoc; eauto]|].
  destruct (String.eqb s "gpu");
    [destruct (cuda_is_available h); simpl;
     (split; [reflexivity | rewrite <- ?app_assoc; eauto])|].
  destruct (String.eqb s "auto");
    [destruct (cuda_is_available h); simpl;
     (split; [reflexivity | rewrite <- app_assoc; eauto])|].
  now split.
Qed.

End WorldSizeMore.

(** ** config_from_args: exits, invariants and repetition *)

Section ConfigMore.

Context {E float std : Type}.
Variable _parse_rendezvous_config : string -> E + gmap string string.
Variable Std_from_str : string -> E + std.
Variable macros_local_rank : string.
Variable h : host.

Abbreviation args := (Args.t float).
Abbreviation config := (LaunchConfig.t float std).
Abbreviation config_from_args :=
  (config_from_args _parse_rendezvous_config Std_from_str macros_local_rank h).
Abbreviation cfa_unparsed :=
  (config_from_args_unparsed _parse_rendezvous_config Std_from_str macros_local_rank h).
Abbreviation cfa_rejected :=
  (config_from_args_rejected _parse_rendezvous_config Std_from_str macros_local_rank h).
Abbreviation cfa_unresolved :=
  (config_from_args_unresolved _parse_rendezvous_config Std_from_str macros_local_rank h).
Abbreviation cfa_resolved :=
  (config_from_args_resolved _parse_rendezvous_config Std_from_str macros_local_rank h).
Abbreviation cfa_environ_resolved :=
  (config_from_args_environ_resolved _parse_rendezvous_config Std_from_str
     macros_local_rank h).
Abbreviation cfa_returns :=
  (config_from_args_returns _parse_rendezvous_config Std_from_str macros_local_rank h).

(** Whether the OMP_NUM_THREADS step goes through. *)
Lemma after_omp_none (v : option Z) (p : process) :
  after_omp v p = None <-> v = None /\ environ p !! "OMP_NUM_THREADS" = None.
Proof.
  unfold after_omp.
  destruct (environ p !! "OMP_NUM_THREADS") as [x|] eqn:Hk.
  - rewrite bool_decide_eq_true_2 by eauto.
    split; [discriminate | intros [_ ?]; discriminate].
  - rewrite bool_decide_eq_false_2 by (intros [? ?]; discriminate).
    destruct v; [split; [discriminate | intros [? _]; discriminate] | tauto].
Qed.

(** The exit of a call that resolved the worker count. *)
Lemma config_from_args_exit_resolved (a : args) (p p1 : process)
    (min_nodes max_nodes : Z) (v : option Z) :
  parse_min_max_nnodes (E := E) (Args.nnodes a) = Returns (min_nodes, max_nodes) ->
  bounds_ok min_nodes max_nodes (Args.max_restarts a) ->
  determine_local_world_size (E := E) h (Args.nproc_per_node a) p = (Returns v, p1) ->
  (config_from_args a p).1 =
    match after_omp v p with
    | None => Raises TypeError
    | Some _ =>
        match _parse_rendezvous_config (Args.rdzv_conf a) with
        | inl e => Raises (LibraryError e)
        | inr parsed =>
            match Std_from_str (Args.redirects a) with
            | inl e => Raises (LibraryError e)
            | inr redirects =>
                match Std_from_str (Args.tee a) with
                | inl e => Raises (LibraryError e)
                | inr tee =>
                    if flags_rejected a then Raises ValueError
                    else
                      Returns
                        (LaunchConfig.mk min_nodes max_nodes v (Args.rdzv_id a)
                           (Args.role a) (get_rdzv_endpoint a) (Args.rdzv_backend a)
                           (if String.eqb (Args.rdzv_backend a) "static"
                            then <["rank" := ConfInt (Args.node_rank a)]> (ConfStr <$> parsed)
                            else ConfStr <$> parsed)
                           (Args.max_restarts a) (Args.monitor_interval a)
                           (Args.start_method a) redirects tee,
                         command macros_local_rank h a)
                end
            end
        end
    end.
Proof.
  intros Hparse Hok Hn.
  pose proof (determine_local_world_size_environ (E := E) h (Args.nproc_per_node a) p) as Henv.
  rewrite Hn in Henv. simpl in Henv.
  rewrite (cfa_resolved _ _ _ _ _ _ Hparse Hok Hn).
  assert (match after_omp v p1 with Some _ => true | None => false end
          = match after_omp v p with Some _ => true | None => false end) as Hsame.
  { unfold after_omp. rewrite Henv.
    destruct (bool_decide _); [reflexivity | now destruct v]. }
  destruct (after_omp v p1), (after_omp v p); try discriminate Hsame; [|reflexivity].
  destruct (_parse_rendezvous_config (Args.rdzv_conf a)); [reflexivity|].
  destruct (Std_from_str (Args.redirects a)); [reflexivity|].
  destruct (Std_from_str (Args.tee a)); [reflexivity|].
  now destruct (flags_rejected a).
Qed.

(** The environment a call leaves is the one it found, or, the variable
    being absent, the one it found with OMP_NUM_THREADS set to 1. *)
Lemma config_from_args_environ_cases (a : args) (p : process) :
  environ (config_from_args a p).2 = environ p \/
  (environ p !! "OMP_NUM_THREADS" = None /\
   environ (config_from_args a p).2 = <["OMP_NUM_THREADS" := "1"]> (environ p)).
Proof.
  destruct (parse_min_max_nnodes (E := E) (Args.nnodes a))
    as [[min_nodes max_nodes]|e] eqn:Hparse;
    [|left; now rewrite (cfa_unparsed _ _ _ Hparse)].
  destruct (bounds_ok_dec min_nodes max_nodes (Args.max_restarts a)) as [Hok|Hbad];
    [|left; now rewrite (cfa_rejected _ _ _ _ Hparse Hbad)].
  pose proof (determine_local_world_size_environ (E := E) h (Args.nproc_per_node a) p) as Henv.
  destruct (determine_local_world_size (E := E) h (Args.nproc_per_node a) p)
    as [[[n|]|e] p1] eqn:Hn; simpl in Henv.
  - rewrite (cfa_environ_resolved _ _ _ _ (Some n) Hparse Hok)
      by now rewrite Hn.
    destruct (environ p !! "OMP_NUM_THREADS") eqn:Hk.
    + left. now rewrite bool_decide_eq_true_2.
    + rewrite bool_decide_eq_false_2 by (intros [? ?]; discriminate). simpl.
      destruct (n >? 1); [right | left]; auto.
  - left. now rewrite (cfa_environ_resolved _ _ _ _ None Hparse Hok)
      by now rewrite Hn.
  - left. now rewrite (cfa_unresolved _ _ _ _ _ _ Hparse Hok Hn).
Qed.

(** X6. Calling [config_from_args] again changes nothing more: the second
    call finds the environment the first one left and leaves it as it
    is. *)
Theorem config_from_args_twice (a : args) (p : process) :
  let p1 := (config_from_args a p).2 in
  environ (config_from_args a p1).2 = environ p1.
Proof.
  cbv zeta.
  destruct (parse_min_max_nnodes (E := E) (Args.nnodes a))
    as [[min_nodes max_nodes]|e] eqn:Hparse;
    [|now rewrite !(cfa_unparsed _ _ _ Hparse)].
  destruct (bounds_ok_dec min_nodes max_nodes (Args.max_restarts a)) as [Hok|Hbad];
    [|now rewrite !(cfa_rejected _ _ _ _ Hparse Hbad)].
  set (p1 := (config_from_args a p).2).
  pose proof (determine_local_world_size_exit (E := E) h (Args.nproc_per_node a) p1 p) as Hexit.
  pose proof (determine_local_world_size_environ (E := E) h (Args.nproc_per_node a) p1) as Henv.
  destruct (determine_local_world_size (E := E) h (Args.nproc_per_node a) p1)
    as [[[n|]|e] p2] eqn:Hn; simpl in Hexit, Henv.
  - rewrite (cfa_environ_resolved _ _ _ _ (Some n) Hparse Hok)
      by now rewrite Hn.
    assert (environ p1
            = if negb (bool_decide (is_Some (environ p !! "OMP_NUM_THREADS"))) && (n >? 1)
              then <["OMP_NUM_THREADS" := "1"]> (environ p) else environ p) as H1.
    { subst p1. now apply (cfa_environ_resolved _ _ _ _ (Some n) Hparse Hok). }
    destruct (negb (bool_decide (is_Some (environ p !! "OMP_NUM_THREADS"))) && (n >? 1))
      eqn:Hc.
    + rewrite H1, lookup_insert_eq.
      now rewrite bool_decide_eq_true_2.
    + rewrite H1, Hc. reflexivity.
  - now rewrite (cfa_environ_resolved _ _ _ _ None Hparse Hok)
      by now rewrite Hn.
  - now rewrite (cfa_unresolved _ _ _ _ _ _ Hparse Hok Hn).
Qed.

(** X7. A [LaunchConfig] that [config_from_args] returns has
    [0 < min_nodes <= max_nodes] and [max_restarts >= 0]; and when it
    returns for [no_python], then [use_env] is set and [module] is not. No
    such bound is put on [nproc_per_node]. *)
Theorem config_from_args_bounds (a : args) (p p' : process) (cfg : config) (cmd : list string) :
  config_from_args a p = (Returns (cfg, cmd), p') ->
  0 < LaunchConfig.min_nodes cfg <= LaunchConfig.max_nodes cfg /\
  LaunchConfig.max_restarts cfg >= 0 /\
  (Args.no_python a = true -> Args.use_env a = true /\ Args.module a = false).
Proof.
  intros Hrun.
  destruct (cfa_returns _ _ _ _ _ Hrun)
    as (min_nodes & max_nodes & n & p1 & parsed & redirects & tee
        & _ & [Hb Hr] & _ & _ & _ & _ & Hflags & -> & _ & _).
  simpl. split; [exact Hb|]. split; [exact Hr|].
  intros Hnp. unfold flags_rejected in Hflags. rewrite Hnp in Hflags.
  now destruct (Args.use_env a), (Args.module a).
Qed.

(** X8. The command [config_from_args] returns is never empty: it starts
    with [sys.executable], or with the training script when [no_python] is
    set, in which case it is that script and its arguments and nothing
    else; and it always ends with the arguments of the training script. *)
Theorem config_from_args_entrypoint (a : args) (p p' : process) (cfg : config) (cmd : list string) :
  config_from_args a p = (Returns (cfg, cmd), p') ->
  (exists argv,
     cmd = (if Args.no_python a then Args.training_script a else sys_executable h)
           :: argv) /\
  (Args.no_python a = true ->
     cmd = Args.training_script a :: Args.training_script_args a) /\
  (exists front,
     cmd = front ++ Args.training_script_args a /\ Args.training_script a ∈ front).
Proof.
  intros Hrun.
  destruct (cfa_returns _ _ _ _ _ Hrun)
    as (min_nodes & max_nodes & n & p1 & parsed & redirects & tee
        & _ & _ & _ & _ & _ & _ & Hflags & _ & -> & _).
  unfold command, flags_rejected in *.
  destruct (Args.no_python a), (Args.use_env a), (Args.module a);
    try discriminate Hflags; simpl;
    (split; [eauto|]); (split; [first [reflexivity | discriminate]|]).
  - exists [Args.training_script a]. split; [reflexivity | set_solver].
  - exists [sys_executable h; "-u"; "-m"; Args.training_script a].
    split; [reflexivity | set_solver].
  - exists [sys_executable h; "-u"; Args.training_script a].
    split; [reflexivity | set_solver].
  - exists [sys_executable h; "-u"; "-m"; Args.training_script a;
            "--local_rank=" +:+ macros_local_rank].
    split; [reflexivity | set_solver].
  - exists [sys_executable h; "-u"; Args.training_script a;
            "--local_rank=" +:+ macros_local_rank].
    split; [reflexivity | set_solver].
Qed.

(** [RuntimeError] comes from the reading of [args.nnodes] only, and
    [IndexError] from nowhere. *)
Lemma config_from_args_runtime_or_index (a : args) (p : process) :
  (config_from_args a p).1 = Raises RuntimeError \/
  (config_from_args a p).1 = Raises IndexError ->
  parse_min_max_nnodes (E := E) (Args.nnodes a) = Raises RuntimeError.
Proof.
  destruct (parse_min_max_nnodes (E := E) (Args.nnodes a))
    as [[min_nodes max_nodes]|e] eqn:Hparse.
  - destruct (bounds_ok_dec min_nodes max_nodes (Args.max_restarts a)) as [Hok|Hbad];
      [|rewrite (cfa_rejected _ _ _ _ Hparse Hbad); now intros [?|?]].
    pose proof (determine_local_world_size_exits (E := E) h (Args.nproc_per_node a) p)
      as Hexit.
    destruct (determine_local_world_size (E := E) h (Args.nproc_per_node a) p)
      as [o p1] eqn:Hn. simpl in Hexit.
    destruct Hexit as [[v ->] | ->].
    + rewrite (config_from_args_exit_resolved _ _ _ _ _ _ Hparse Hok Hn).
      destruct (after_omp v p); [|now intros [?|?]].
      destruct (_parse_rendezvous_config (Args.rdzv_conf a)); [now intros [?|?]|].
      destruct (Std_from_str (Args.redirects a)); [now intros [?|?]|].
      destruct (Std_from_str (Args.tee a)); [now intros [?|?]|].
      destruct (flags_rejected a); now intros [?|?].
    + rewrite (cfa_unresolved _ _ _ _ _ _ Hparse Hok Hn). now intros [?|?].
  - rewrite (cfa_unparsed _ _ _ Hparse). simpl.
    destruct (parse_min_max_nnodes_raises _ _ Hparse) as [[-> _] | [-> _]];
      [reflexivity | now intros [?|?]].
Qed.

Lemma config_from_args_no_index_error (a : args) (p : process) :
  (config_from_args a p).1 <> Raises IndexError.
Proof.
  intros H.
  assert (parse_min_max_nnodes (E := E) (Args.nnodes a) = Raises RuntimeError) as Hp
    by (apply (config_from_args_runtime_or_index a p); now right).
  rewrite (cfa_unparsed _ _ _ Hp) in H. discriminate H.
Qed.

(** X9. Exceptions of the imported functions aside, [config_from_args]
    raises [RuntimeError] exactly when [args.nnodes] has two or more
    colons, and then before anything else is looked at: the process is
    left as found. It never raises [IndexError]. *)
Theorem config_from_args_runtime_error (a : args) (p : process) :
  ((config_from_args a p).1 = Raises RuntimeError
   <-> (2 <= Py.count ":" (Args.nnodes a))%nat) /\
  ((2 <= Py.count ":" (Args.nnodes a))%nat ->
     config_from_args a p = (Raises RuntimeError, p)) /\
  (config_from_args a p).1 <> Raises IndexError.
Proof.
  assert (parse_min_max_nnodes (E := E) (Args.nnodes a) = Raises RuntimeError
          <-> (2 <= Py.count ":" (Args.nnodes a))%nat) as Hrt.
  { split; [|apply parse_min_max_nnodes_many].
    intros H. destruct (parse_min_max_nnodes_raises _ _ H) as [[_ ?] | [? _]];
      [assumption | discriminate]. }
  pose proof (config_from_args_runtime_or_index a p) as Hback.
  split; [split|split].
  - intros H. apply Hrt, Hback. now left.
  - intros H. apply Hrt in H. now rewrite (cfa_unparsed _ _ _ H).
  - intros H. apply Hrt in H. now rewrite (cfa_unparsed _ _ _ H).
  - intros H. assert (parse_min_max_nnodes (E := E) (Args.nnodes a) = Raises RuntimeError)
      as Hp by (apply Hback; now right).
    rewrite (cfa_unparsed _ _ _ Hp) in H. discriminate H.
Qed.

(** X10. The three places a [ValueError] of [config_from_args] comes from,
    and no other, exceptions of the imported functions aside: [int] on a
    field of [args.nnodes]; the worker count, once the bounds have passed
    the two [assert]s; the flags, once the worker count has got through
    the OMP_NUM_THREADS step (a count of [None] does so only where the
    variable is set) and the rendezvous configuration and the two
    redirect specifications have been read as well. *)
Theorem config_from_args_value_error (a : args) (p : process) :
  (config_from_args a p).1 = Raises ValueError <->
  parse_min_max_nnodes (E := E) (Args.nnodes a) = Raises ValueError \/
  exists min_nodes max_nodes,
    parse_min_max_nnodes (E := E) (Args.nnodes a) = Returns (min_nodes, max_nodes) /\
    (0 < min_nodes <= max_nodes /\ Args.max_restarts a >= 0) /\
    ((determine_local_world_size (E := E) h (Args.nproc_per_node a) p).1
       = Raises ValueError \/
     exists v parsed redirects tee,
       (determine_local_world_size (E := E) h (Args.nproc_per_node a) p).1 = Returns v /\
       (v = None -> is_Some (environ p !! "OMP_NUM_THREADS")) /\
       _parse_rendezvous_config (Args.rdzv_conf a) = inr parsed /\
       Std_from_str (Args.redirects a) = inr redirects /\
       Std_from_str (Args.tee a) = inr tee /\
       Args.no_python a = true /\
       (Args.use_env a = false \/ Args.module a = true)).
Proof.
  assert (flags_rejected a = true <->
          Args.no_python a = true /\
          (Args.use_env a = false \/ Args.module a = true)) as Hflags.
  { unfold flags_rejected.
    destruct (Args.no_python a), (Args.use_env a), (Args.module a); simpl;
      intuition discriminate. }
  destruct (parse_min_max_nnodes (E := E) (Args.nnodes a))
    as [[min_nodes max_nodes]|e] eqn:Hparse.
  - destruct (bounds_ok_dec min_nodes max_nodes (Args.max_restarts a)) as [Hok|Hbad].
    + destruct (determine_local_world_size (E := E) h (Args.nproc_per_node a) p)
        as [[v|e] p1] eqn:Hn.
      * rewrite (config_from_args_exit_resolved _ _ _ _ _ _ Hparse Hok Hn). simpl.
        destruct (after_omp v p) as [p2|] eqn:Homp.
        -- assert (v = None -> is_Some (environ p !! "OMP_NUM_THREADS")) as Hv.
           { intros ->. destruct (environ p !! "OMP_NUM_THREADS") eqn:Hk; [eauto|].
             assert (after_omp None p = None) as Hnone
               by (apply after_omp_none; auto).
             rewrite Hnone in Homp. discriminate Homp. }
           destruct (_parse_rendezvous_config (Args.rdzv_conf a)) as [|parsed];
             [split; [discriminate | intros [?|(? & ? & _ & _ & [?|(? & ? & ? & ? & _ & _ & ? & _)])]; discriminate]|].
           destruct (Std_from_str (Args.redirects a)) as [|redirects];
             [split; [discriminate | intros [?|(? & ? & _ & _ & [?|(? & ? & ? & ? & _ & _ & _ & ? & _)])]; discriminate]|].
           destruct (Std_from_str (Args.tee a)) as [|tee];
             [split; [discriminate | intros [?|(? & ? & _ & _ & [?|(? & ? & ? & ? & _ & _ & _ & _ & ? & _)])]; discriminate]|].
           destruct (flags_rejected a).
           ++ split; [intros _ | reflexivity]. right. exists min_nodes, max_nodes.
              split; [reflexivity|]. split; [exact Hok|]. right.
              exists v, parsed, redirects, tee.
              split; [reflexivity|]. split; [exact Hv|].
              repeat (split; [reflexivity|]). now apply Hflags.
           ++ split; [discriminate|].
              intros [?|(? & ? & _ & _ & [?|(? & ? & ? & ? & _ & _ & _ & _ & _ & Hf)])];
                try discriminate.
              apply Hflags in Hf. discriminate Hf.
        -- apply after_omp_none in Homp as [-> Hk].
           split; [discriminate|].
           intros [?|(? & ? & _ & _ & [?|(v & ? & ? & ? & Hv & Hset & _)])];
             try discriminate.
           injection Hv as <-. destruct (Hset eq_refl) as [val Hval].
           rewrite Hk in Hval. discriminate Hval.
      * rewrite (cfa_unresolved _ _ _ _ _ _ Hparse Hok Hn). simpl.
        split.
        -- intros [= ->]. right. exists min_nodes, max_nodes. auto.
        -- intros [?|(? & ? & _ & _ & [H|(? & ? & ? & ? & ? & _)])];
             [discriminate | now injection H as -> | discriminate].
    + rewrite (cfa_rejected _ _ _ _ Hparse Hbad). simpl.
      split; [discriminate|].
      intros [?|(? & ? & [= <- <-] & Hok & _)]; [discriminate | now destruct Hbad].
  - rewrite (cfa_unparsed _ _ _ Hparse). simpl.
    split; [intros [= ->]; now left|].
    intros [H|(? & ? & ? & _)]; [now injection H as -> | discriminate].
Qed.

(** X5. Where [TypeError] comes from, so that the environment does
    decide on the exit: the comparison of the worker count with 1, made
    when OMP_NUM_THREADS is not set, on a count that is [None],
    that is on a machine where [os.cpu_count()] is [None], for cpu, or for
    auto without CUDA. The process is then left with the records of the
    resolution and nothing more, and no [LaunchConfig] is built. *)
Theorem config_from_args_type_error (a : args) (p : process) :
  ((config_from_args a p).1 = Raises TypeError <->
   exists min_nodes max_nodes,
     parse_min_max_nnodes (E := E) (Args.nnodes a) = Returns (min_nodes, max_nodes) /\
     (0 < min_nodes <= max_nodes /\ Args.max_restarts a >= 0) /\
     (determine_local_world_size (E := E) h (Args.nproc_per_node a) p).1 = Returns None /\
     environ p !! "OMP_NUM_THREADS" = None) /\
  ((config_from_args a p).1 = Raises TypeError ->
   cpu_count h = None /\
   (Args.nproc_per_node a = "cpu" \/
    Args.nproc_per_node a = "auto" /\ cuda_is_available h = false) /\
   (config_from_args a p).2
   = (determine_local_world_size (E := E) h (Args.nproc_per_node a) p).2).
Proof.
  assert ((config_from_args a p).1 = Raises TypeError ->
          (exists min_nodes max_nodes,
             parse_min_max_nnodes (E := E) (Args.nnodes a) = Returns (min_nodes, max_nodes) /\
             (0 < min_nodes <= max_nodes /\ Args.max_restarts a >= 0) /\
             (determine_local_world_size (E := E) h (Args.nproc_per_node a) p).1
             = Returns None /\
             environ p !! "OMP_NUM_THREADS" = None) /\
          (config_from_args a p).2
          = (determine_local_world_size (E := E) h (Args.nproc_per_node a) p).2) as Hfwd.
  { destruct (parse_min_max_nnodes (E := E) (Args.nnodes a))
      as [[min_nodes max_nodes]|e] eqn:Hparse.
    - destruct (bounds_ok_dec min_nodes max_nodes (Args.max_restarts a)) as [Hok|Hbad];
        [|rewrite (cfa_rejected _ _ _ _ Hparse Hbad); discriminate].
      pose proof (determine_local_world_size_exits (E := E) h (Args.nproc_per_node a) p)
        as Hexit.
      pose proof (determine_local_world_size_environ (E := E) h (Args.nproc_per_node a) p)
        as Henv.
      destruct (determine_local_world_size (E := E) h (Args.nproc_per_node a) p)
        as [o p1] eqn:Hn. simpl in Hexit, Henv.
      destruct Hexit as [[v ->] | ->];
        [|rewrite (cfa_unresolved _ _ _ _ _ _ Hparse Hok Hn); discriminate].
      rewrite (cfa_resolved _ _ _ _ _ _ Hparse Hok Hn).
      destruct (after_omp v p1) as [p2|] eqn:Homp.
      + destruct (_parse_rendezvous_config (Args.rdzv_conf a)); [discriminate|].
        destruct (Std_from_str (Args.redirects a)); [discriminate|].
        destruct (Std_from_str (Args.tee a)); [discriminate|].
        destruct (flags_rejected a); discriminate.
      + intros _. apply after_omp_none in Homp as [-> Hk]. rewrite Henv in Hk.
        split; [|reflexivity]. exists min_nodes, max_nodes. auto.
    - rewrite (cfa_unparsed _ _ _ Hparse). simpl. intros [= ->].
      destruct (parse_min_max_nnodes_raises _ _ Hparse) as [[? _] | [? _]];
        discriminate. }
  split; [split|].
  - intros H. now apply Hfwd.
  - intros (min_nodes & max_nodes & Hparse & Hok & Hv & Hk).
    destruct (determine_local_world_size (E := E) h (Args.nproc_per_node a) p)
      as [o p1] eqn:Hn. simpl in Hv. subst o.
    rewrite (config_from_args_exit_resolved _ _ _ _ _ _ Hparse Hok Hn).
    assert (after_omp None p = None) as -> by (apply after_omp_none; auto).
    reflexivity.
  - intros H. destruct (Hfwd H) as [(min_nodes & max_nodes & _ & _ & Hv & _) Hp].
    apply determine_local_world_size_none in Hv as [Hcpu Hs].
    auto.
Qed.

(** What a call that resolved the worker count adds to the trace after
    that: the banner when it sets OMP_NUM_THREADS, the deprecation warning
    when it returns with [use_env] unset. *)
Lemma config_from_args_trace_resolved (a : args) (p p1 : process)
    (min_nodes max_nodes : Z) (v : option Z) :
  parse_min_max_nnodes (E := E) (Args.nnodes a) = Returns (min_nodes, max_nodes) ->
  bounds_ok min_nodes max_nodes (Args.max_restarts a) ->
  determine_local_world_size (E := E) h (Args.nproc_per_node a) p = (Returns v, p1) ->
  trace (config_from_args a p).2
  = trace p1
    ++ (if match v with
           | Some n =>
               negb (bool_decide (is_Some (environ p !! "OMP_NUM_THREADS"))) && (n >? 1)
           | None => false
           end
        then [print_omp_num_threads 1] else [])
    ++ (match (config_from_args a p).1 with
        | Returns _ => if Args.use_env a then [] else [log_warning_deprecated]
        | Raises _ => []
        end).
Proof.
  intros Hparse Hok Hn.
  pose proof (determine_local_world_size_environ (E := E) h (Args.nproc_per_node a) p) as Henv.
  rewrite Hn in Henv. simpl in Henv.
  rewrite (cfa_resolved _ _ _ _ _ _ Hparse Hok Hn).
  destruct (after_omp v p1) as [p2|] eqn:Hp2.
  - assert (trace p2
            = trace p1 ++
              (if match v with
                  | Some n =>
                      negb (bool_decide (is_Some (environ p !! "OMP_NUM_THREADS")))
                      && (n >? 1)
                  | None => false
                  end
               then [print_omp_num_threads 1] else [])) as Homp.
    { unfold after_omp in Hp2. rewrite Henv in Hp2.
      destruct (bool_decide (is_Some (environ p !! "OMP_NUM_THREADS")));
        [injection Hp2 as <-; destruct v; simpl; now rewrite app_nil_r|].
      destruct v as [n|]; [|discriminate Hp2]. injection Hp2 as <-. simpl.
      destruct (n >? 1); simpl; [reflexivity | now rewrite app_nil_r]. }
    destruct (_parse_rendezvous_config (Args.rdzv_conf a));
      [simpl; now rewrite Homp, app_nil_r|].
    destruct (Std_from_str (Args.redirects a));
      [simpl; now rewrite Homp, app_nil_r|].
    destruct (Std_from_str (Args.tee a));
      [simpl; now rewrite Homp, app_nil_r|].
    destruct (flags_rejected a); [simpl; now rewrite Homp, app_nil_r|].
    destruct (Args.use_env a); simpl; rewrite Homp;
      [now rewrite app_nil_r | now rewrite <- app_assoc].
  - unfold after_omp in Hp2.
    destruct (bool_decide (is_Some (environ p1 !! "OMP_NUM_THREADS")));
      [discriminate Hp2|].
    destruct v; [discriminate Hp2|]. simpl. now rewrite app_nil_r.
Qed.

(** X11. In what [config_from_args] adds to the trace, the deprecation
    warning occurs exactly when the call returns with [use_env] unset (a
    call that raises never warns), and the OMP_NUM_THREADS banner exactly
    when the call changes the environment. *)
Theorem config_from_args_records (a : args) (p : process) :
  exists evs,
    trace (config_from_args a p).2 = trace p ++ evs /\
    (log_warning_deprecated ∈ evs
     <-> Args.use_env a = false /\ exists r, (config_from_args a p).1 = Returns r) /\
    (print_omp_num_threads 1 ∈ evs
     <-> environ (config_from_args a p).2 <> environ p).
Proof.
  assert (forall e : exn E,
            ~ (Args.use_env a = false /\
               exists r : config * list string, Raises e = Returns r)) as Hno
    by (intros e [_ [r Hr]]; discriminate Hr).
  destruct (parse_min_max_nnodes (E := E) (Args.nnodes a))
    as [[min_nodes max_nodes]|e] eqn:Hparse;
    [|rewrite (cfa_unparsed _ _ _ Hparse); exists []; simpl;
      rewrite app_nil_r, !elem_of_nil; split; [reflexivity|];
      split; [specialize (Hno e)|]; tauto].
  destruct (bounds_ok_dec min_nodes max_nodes (Args.max_restarts a)) as [Hok|Hbad];
    [|rewrite (cfa_rejected _ _ _ _ Hparse Hbad); exists []; simpl;
      rewrite app_nil_r, !elem_of_nil; split; [reflexivity|];
      split; [specialize (Hno AssertionError)|]; tauto].
  pose proof (determine_local_world_size_records (E := E) h (Args.nproc_per_node a) p) as Hrec.
  destruct (determine_local_world_size (E := E) h (Args.nproc_per_node a) p)
    as [[v|e] p1] eqn:Hn; destruct Hrec as [Henv Hrec].
  - assert (exists evs1, trace p1 = trace p ++ evs1 /\
              (log_warning_deprecated ∉ evs1) /\ (print_omp_num_threads 1 ∉ evs1))
      as (evs1 & Hevs1 & Hw1 & Ho1).
    { destruct (Py.int (Args.nproc_per_node a)); [|destruct Hrec as [dt Hrec]];
        eexists; (split; [exact Hrec|]);
        rewrite ?elem_of_cons, !elem_of_nil; split; intros H;
        repeat (destruct H as [H|H]; try discriminate H); exact H. }
    pose proof (config_from_args_trace_resolved _ _ _ _ _ _ Hparse Hok Hn) as Htr.
    pose proof (cfa_environ_resolved _ _ _ _ _ Hparse Hok
                  ltac:(rewrite Hn; reflexivity)) as Hen.
    remember (match v with
              | Some n =>
                  negb (bool_decide (is_Some (environ p !! "OMP_NUM_THREADS")))
                  && (n >? 1)
              | None => false
              end) as sets eqn:Hsets.
    assert (environ (config_from_args a p).2
            = if sets then <["OMP_NUM_THREADS" := "1"]> (environ p) else environ p)
      as Hen'.
    { rewrite Hen, Hsets. now destruct v. }
    assert (sets = true -> environ p !! "OMP_NUM_THREADS" = None) as Habsent.
    { rewrite Hsets. destruct v as [n|]; [|discriminate].
      destruct (environ p !! "OMP_NUM_THREADS"); [|reflexivity].
      now rewrite bool_decide_eq_true_2 by eauto. }
    clear Hen Hsets.
    rewrite Htr, Hevs1, <- app_assoc. eexists. split; [reflexivity|].
    rewrite !elem_of_app. split.
    + destruct (config_from_args a p).1 as [r|e] eqn:Hexit.
      * destruct (Args.use_env a); rewrite ?elem_of_cons, !elem_of_nil.
        -- split; [|intros [? _]; discriminate].
           destruct sets; rewrite ?elem_of_cons, ?elem_of_nil;
             intros [?|[[?|?]|?]] || intros [?|[?|?]]; try tauto; discriminate.
        -- split; [eauto | tauto].
      * rewrite elem_of_nil. split; [|intros [_ [r Hr]]; discriminate Hr].
        destruct sets; rewrite ?elem_of_cons, ?elem_of_nil;
          intros [?|[[?|?]|?]] || intros [?|[?|?]]; try tauto; discriminate.
    + rewrite Hen'. destruct sets.
      * split; [intros _ | intros _; right; left; apply list_elem_of_here].
        intros Heq. pose proof (lookup_insert_eq (environ p) "OMP_NUM_THREADS" "1") as Hl.
        rewrite Heq, (Habsent eq_refl) in Hl. discriminate Hl.
      * rewrite elem_of_nil. split; [|tauto].
        intros [?|[?|Hin]]; try tauto.
        destruct (config_from_args a p).1; [destruct (Args.use_env a)|];
          rewrite ?elem_of_cons, ?elem_of_nil in Hin;
          repeat (destruct Hin as [Hin|Hin]; try discriminate Hin); tauto.
  - rewrite (cfa_unresolved _ _ _ _ _ _ Hparse Hok Hn). simpl in *.
    eexists. split; [exact Hrec|].
    rewrite !elem_of_cons, !elem_of_nil.
    split; [split; [intros [H|H]; [discriminate H | tauto] | intros H; now apply Hno in H]|].
    split; [intros [H|H]; [discriminate H | tauto] | intros H; now destruct H].
Qed.

End ConfigMore.

(** ** run: what comes out, and what is left alone *)

Section RunMore.

Context {E float std : Type}.
Variable _parse_rendezvous_config : string -> E + gmap string string.
Variable Std_from_str : string -> E + std.
Variable macros_local_rank : string.
Variable elastic_launch : LaunchConfig.t float std -> string -> list string -> option E.
Variable h : host.

Abbreviation run_args :=
  (run _parse_rendezvous_config Std_from_str macros_local_rank elastic_launch h).
Abbreviation config_of :=
  (config_from_args _parse_rendezvous_config Std_from_str macros_local_rank h).

Lemma command_cons (a : Args.t float) :
  exists entrypoint argv, command macros_local_rank h a = entrypoint :: argv.
Proof. unfold command. destruct (Args.no_python a); simpl; eauto. Qed.

(** X12. How [run] ends. If [config_from_args] raises, that exception is
    the exit of [run] and nothing is done after it. If it returns, the
    command has an entry point (taking it never raises [IndexError]), the
    launch is called on it once, its exit is the exit of [run], and the
    only thing [run] does after it is to stop the embedded server in
    standalone mode. *)
Theorem run_exits (a : Args.t float) (p : process) :
  let '(o, a', p') := run_args a p in
  let p0 :=
    if Args.standalone a then
      Process (environ p)
        (trace p ++ [etcd_server_start;
                     log_info_rendezvous "etcd" (etcd_endpoint h) (uuid4 h)])
    else p in
  o <> Raises IndexError /\
  match config_of a' p0 with
  | (Raises e, p1) => o = Raises e /\ p' = p1
  | (Returns (cfg, cmd), p1) =>
      exists entrypoint argv,
        cmd = entrypoint :: argv /\
        o = match elastic_launch cfg entrypoint argv with
            | None => Returns tt
            | Some e => Raises (LibraryError e)
            end /\
        environ p' = environ p1 /\
        trace p' = trace p1 ++ elastic_launch_call entrypoint argv
                     :: (if Args.standalone a then [etcd_server_stop] else [])
  end.
Proof.
  unfold run. destruct (Args.standalone a) eqn:Hs; cbv zeta; simpl;
    rewrite <- ?app_assoc; simpl;
    match goal with
    | |- context [config_from_args ?f ?g ?m ?hh ?aa ?pp] =>
        pose proof (config_from_args_no_index_error f g m hh aa pp) as Hidx;
        destruct (config_from_args f g m hh aa pp) as [[[cfg cmd]|e] p1] eqn:Hcfg
    end; simpl in Hidx; simpl; rewrite ?Hcfg; rewrite ?Hs.
  - destruct (config_from_args_returns _ _ _ _ _ _ _ _ _ Hcfg)
      as (? & ? & ? & ? & ? & ? & ? & _ & _ & _ & _ & _ & _ & _ & _ & Hcmd & _).
    destruct (command_cons (Args.mk (Args.nnodes a) (Args.nproc_per_node a) "etcd"
               (etcd_endpoint h) (uuid4 h) (Args.rdzv_conf a) true (Args.max_restarts a)
               (Args.monitor_interval a) (Args.start_method a) (Args.role a)
               (Args.module a) (Args.no_python a) (Args.log_dir a) (Args.redirects a)
               (Args.tee a) (Args.node_rank a) (Args.master_addr a) (Args.master_port a)
               (Args.training_script a) (Args.training_script_args a) (Args.use_env a)))
      as (entrypoint & argv & Hc).
    rewrite Hc in Hcmd. subst cmd.
    unfold try_finally, bind, emit, ret, raise. simpl.
    destruct (elastic_launch cfg entrypoint argv) eqn:Hl; simpl; rewrite ?Hs; simpl;
      rewrite <- ?app_assoc; simpl; rewrite Hcfg;
      (split; [discriminate|]); exists entrypoint, argv;
      rewrite <- ?app_assoc, Hl; auto.
  - rewrite <- ?app_assoc; simpl; rewrite ?Hcfg.
    split; [intros [= ->]; now apply Hidx | auto].
  - destruct (config_from_args_returns _ _ _ _ _ _ _ _ _ Hcfg)
      as (? & ? & ? & ? & ? & ? & ? & _ & _ & _ & _ & _ & _ & _ & _ & Hcmd & _).
    destruct (command_cons a) as (entrypoint & argv & Hc).
    rewrite Hc in Hcmd. subst cmd.
    unfold try_finally, bind, emit, ret, raise. simpl.
    destruct (elastic_launch cfg entrypoint argv) eqn:Hl; simpl; rewrite ?Hs; simpl;
      rewrite Hcfg; (split; [discriminate|]); exists entrypoint, argv;
      rewrite Hl; auto.
  - rewrite <- ?app_assoc; simpl; rewrite ?Hcfg.
    split; [intros [= ->]; now apply Hidx | auto].
Qed.

(** X13. Of the arguments, [run] writes to [rdzv_backend],
    [rdzv_endpoint] and [rdzv_id] only, and to those in standalone mode
    only: every other argument is as it was, and without [standalone] the
    arguments are wholly untouched and no embedded server is started or
    stopped. *)
Theorem run_args_frame (a : Args.t float) (p : process) :
  let '(_, a', p') := run_args a p in
  (Args.nnodes a', Args.nproc_per_node a', Args.rdzv_conf a', Args.standalone a',
   Args.max_restarts a', Args.monitor_interval a', Args.start_method a')
  = (Args.nnodes a, Args.nproc_per_node a, Args.rdzv_conf a, Args.standalone a,
     Args.max_restarts a, Args.monitor_interval a, Args.start_method a) /\
  (Args.role a', Args.module a', Args.no_python a', Args.log_dir a',
   Args.redirects a', Args.tee a', Args.node_rank a')
  = (Args.role a, Args.module a, Args.no_python a, Args.log_dir a,
     Args.redirects a, Args.tee a, Args.node_rank a) /\
  (Args.master_addr a', Args.master_port a', Args.training_script a',
   Args.training_script_args a', Args.use_env a')
  = (Args.master_addr a, Args.master_port a, Args.training_script a,
     Args.training_script_args a, Args.use_env a) /\
  (Args.standalone a = false ->
     a' = a /\ exists evs, trace p' = trace p ++ evs /\ quiet evs = true).
Proof.
  unfold run. destruct (Args.standalone a) eqn:Hs; cbv zeta; simpl;
    match goal with
    | |- context [config_from_args ?f ?g ?m ?hh ?aa ?pp] =>
        destruct (config_from_args_quiet f g m hh aa pp) as (evs & Hevs & Hq);
        destruct (config_from_args f g m hh aa pp) as [[[cfg cmd]|e] p1]
    end; simpl in Hevs; simpl.
  - unfold try_finally, bind, emit, ret, raise.
    destruct cmd as [|entrypoint argv]; simpl;
      [|destruct (elastic_launch cfg entrypoint argv)]; simpl;
      rewrite ?Hs; do 3 (split; [reflexivity|]); discriminate.
  - rewrite ?Hs. do 3 (split; [reflexivity|]). discriminate.
  - unfold try_finally, bind, emit, ret, raise.
    destruct cmd as [|entrypoint argv]; simpl;
      [|destruct (elastic_launch cfg entrypoint argv)]; simpl;
      rewrite ?Hs; simpl;
      (split; [reflexivity|]); (split; [reflexivity|]); (split; [reflexivity|]);
      intros _; (split; [reflexivity|]);
      rewrite Hevs, <- ?app_assoc; eexists; (split; [reflexivity|]);
      try exact Hq; apply quiet_app; (exact Hq || reflexivity).
  - rewrite ?Hs. do 3 (split; [reflexivity|]). intros _. split; [reflexivity|]. eauto.
Qed.

(** X14. Whatever the arguments and however it ends, the statements of
    [run] and of the functions of this file it calls leave the environment
    as they found it, or, OMP_NUM_THREADS being absent, as they found it
    with OMP_NUM_THREADS set to 1 (what the launch itself does to the
    environment is not in this file). *)
Theorem run_environ (a : Args.t float) (p : process) :
  let p' := (run_args a p).2 in
  environ p' = environ p \/
  (environ p !! "OMP_NUM_THREADS" = None /\
   environ p' = <["OMP_NUM_THREADS" := "1"]> (environ p)).
Proof.
  cbv zeta. unfold run. destruct (Args.standalone a) eqn:Hs; cbv zeta; simpl;
    match goal with
    | |- context [config_from_args ?f ?g ?m ?hh ?aa ?pp] =>
        pose proof (config_from_args_environ_cases f g m hh aa pp) as Hc;
        destruct (config_from_args f g m hh aa pp) as [[[cfg cmd]|e] p1]
    end; simpl in Hc; simpl; try exact Hc;
    unfold try_finally, bind, emit, ret, raise;
    (destruct cmd as [|entrypoint argv]; simpl;
     [|destruct (elastic_launch cfg entrypoint argv)]; simpl; rewrite ?Hs; exact Hc).
Qed.

End RunMore.

(** ** The static endpoint, taken apart again *)

Section EndpointMore.

Context {float : Type}.

Lemma split_append (sep : ascii) (x y : string) :
  Py.split sep (x +:+ String sep y) = Py.split sep x ++ Py.split sep y.
Proof.
  induction x as [|c x IH]; simpl.
  - now rewrite Ascii.eqb_refl.
  - destruct (Ascii.eqb c sep); simpl; [now rewrite IH|].
    rewrite IH. pose proof (split_not_nil sep x) as Hx.
    now destruct (Py.split sep x).
Qed.

(** X15. For the static backend, the endpoint split at its colons is the
    master address split at its colons, followed by one more field, the
    port in decimal, from which [int] gives [args.master_port] back. An
    address without colon is the only field before the port; an address
    with colons, such as a bracketed IPv6 one, gives more than two
    fields. *)
Theorem get_rdzv_endpoint_static_fields (a : Args.t float) :
  Args.rdzv_backend a = "static" ->
  Py.split ":" (get_rdzv_endpoint a)
  = Py.split ":" (Args.master_addr a) ++ [Py.str (Args.master_port a)] /\
  Py.int (Py.str (Args.master_port a)) = Some (Args.master_port a) /\
  length (Py.split ":" (get_rdzv_endpoint a))
  = (2 + Py.count ":" (Args.master_addr a))%nat.
Proof.
  intros Hs. unfold get_rdzv_endpoint. rewrite Hs. simpl String.eqb. cbv iota.
  change (Args.master_addr a +:+ ":" +:+ Py.str (Args.master_port a))
    with (Args.master_addr a +:+ String ":" (Py.str (Args.master_port a))).
  rewrite split_append, (split_without_sep _ _ (count_colon_str _)).
  split; [reflexivity|]. split; [apply int_str|].
  rewrite length_app, length_split. simpl. lia.
Qed.

End EndpointMore.

(** ** The further properties at work on concrete calls *)

Lemma parse_min_max_nnodes_exits_witness :
  parse_min_max_nnodes (E := unit) "1:2:3" = Raises RuntimeError /\
  (Py.count ":" "4:2" <= 1)%nat.
Proof.
  split.
  - destruct (parse_min_max_nnodes_exits (E := unit) "1:2:3") as ([_ H] & _).
    apply H. simpl. lia.
  - destruct (parse_min_max_nnodes_exits (E := unit) "4:2") as (_ & _ & H).
    destruct (H 4 2 eq_refl) as [Hle _]. exact Hle.
Defined.

Lemma config_from_args_bounds_witness :
  exists cfg cmd p',
    Sample.config_from Sample.cpu_box
      (Sample.options "2:5" "0" "etcd" "" false false false true) Sample.fresh
    = (Returns (cfg, cmd), p') /\
    0 < LaunchConfig.min_nodes cfg <= LaunchConfig.max_nodes cfg /\
    LaunchConfig.nproc_per_node cfg = Some 0.
Proof.
  destruct (Sample.config_from Sample.cpu_box
              (Sample.options "2:5" "0" "etcd" "" false false false true) Sample.fresh)
    as [[[cfg cmd]|e] p'] eqn:Hrun; [|discriminate Hrun].
  exists cfg, cmd, p'. split; [reflexivity|].
  destruct (config_from_args_bounds Sample.parse_conf Sample.std_from_str
              Sample.local_rank Sample.cpu_box _ _ p' cfg cmd Hrun) as (Hb & _ & _).
  split; [exact Hb|]. now injection Hrun as <- _ _.
Defined.

Lemma config_from_args_entrypoint_witness :
  exists cfg p',
    Sample.config_from Sample.cpu_box
      (Sample.options "1:1" "2" "static" "" false false true true) Sample.fresh
    = (Returns (cfg, ["train.py"; "--epochs=2"]), p').
Proof.
  destruct (Sample.config_from Sample.cpu_box
              (Sample.options "1:1" "2" "static" "" false false true true) Sample.fresh)
    as [[[cfg cmd]|e] p'] eqn:Hrun; [|discriminate Hrun].
  exists cfg, p'.
  destruct (config_from_args_entrypoint Sample.parse_conf Sample.std_from_str
              Sample.local_rank Sample.cpu_box _ _ p' cfg cmd Hrun) as (_ & Hnp & _).
  now rewrite (Hnp eq_refl).
Defined.

Lemma config_from_args_runtime_error_witness :
  Sample.config_from Sample.cpu_box
    (Sample.options "1:2:3" "tpu" "static" "a,b" false true true false) Sample.fresh
  = (Raises RuntimeError, Sample.fresh).
Proof.
  destruct (config_from_args_runtime_error Sample.parse_conf Sample.std_from_str
              Sample.local_rank Sample.cpu_box
              (Sample.options "1:2:3" "tpu" "static" "a,b" false true true false)
              Sample.fresh) as (_ & H & _).
  apply H. simpl. lia.
Defined.

Lemma config_from_args_value_error_witness :
  (Sample.config_from Sample.cpu_box
     (Sample.options "1:1" "tpu" "static" "" false false false true) Sample.fresh).1
  = Raises ValueError.
Proof.
  apply (config_from_args_value_error Sample.parse_conf Sample.std_from_str
           Sample.local_rank Sample.cpu_box).
  right. exists 1, 1. split; [reflexivity|]. split; [simpl; lia|]. left. reflexivity.
Defined.

Lemma config_from_args_type_error_witness :
  (Sample.config_from Sample.bare_box
     (Sample.options "1:1" "cpu" "static" "" false false false true) Sample.fresh).1
  = Raises TypeError /\
  (Sample.config_from Sample.bare_box
     (Sample.options "1:1" "cpu" "static" "" false false false true)
     {| environ := <["OMP_NUM_THREADS" := "6"]> ∅; trace := [] |}).1
  <> Raises TypeError.
Proof.
  split.
  - destruct (config_from_args_type_error Sample.parse_conf Sample.std_from_str
                Sample.local_rank Sample.bare_box
                (Sample.options "1:1" "cpu" "static" "" false false false true)
                Sample.fresh) as [[_ Hback] _].
    apply Hback.
    exists 1, 1. split; [reflexivity|]. split; [simpl; lia|].
    split; reflexivity.
  - intros H.
    destruct (config_from_args_type_error Sample.parse_conf Sample.std_from_str
                Sample.local_rank Sample.bare_box
                (Sample.options "1:1" "cpu" "static" "" false false false true)
                {| environ := <["OMP_NUM_THREADS" := "6"]> ∅; trace := [] |})
      as [[Hfwd _] _].
    destruct (Hfwd H) as (min_nodes & max_nodes & _ & _ & _ & Hk). discriminate Hk.
Defined.

Lemma config_from_args_records_witness :
  exists evs,
    trace (Sample.config_from Sample.cpu_box
             (Sample.options "1:1" "2" "static" "" false false false false)
             Sample.fresh).2
    = evs /\
    log_warning_deprecated ∈ evs /\ print_omp_num_threads 1 ∈ evs.
Proof.
  destruct (config_from_args_records Sample.parse_conf Sample.std_from_str
              Sample.local_rank Sample.cpu_box
              (Sample.options "1:1" "2" "static" "" false false false false)
              Sample.fresh) as (evs & Htr & Hw & Ho).
  exists evs. split; [exact Htr|]. split.
  - apply Hw. split; [reflexivity|]. eexists. reflexivity.
  - apply Ho. intros Heq.
    apply (f_equal (fun m => m !! "OMP_NUM_THREADS")) in Heq. discriminate Heq.
Defined.

Lemma run_args_frame_witness :
  (Sample.run_with Sample.launch_fails Sample.cpu_box Sample.defaults Sample.fresh).1.2
  = Sample.defaults.
Proof.
  pose proof (run_args_frame Sample.parse_conf Sample.std_from_str Sample.local_rank
                Sample.launch_fails Sample.cpu_box Sample.defaults Sample.fresh) as H.
  unfold Sample.run_with.
  destruct (run Sample.parse_conf Sample.std_from_str Sample.local_rank
              Sample.launch_fails Sample.cpu_box Sample.defaults Sample.fresh)
    as [[o a'] p'].
  destruct H as (_ & _ & _ & H). destruct (H eq_refl) as [Ha _]. exact Ha.
Defined.

Lemma run_standalone_witness :
  let a := Sample.options "1:1" "2" "static" "" true false false true in
  let a' := (Sample.run_with Sample.launch_fails Sample.cpu_box a Sample.fresh).1.2 in
  (Args.rdzv_backend a', Args.rdzv_endpoint a')
  = ("etcd", etcd_endpoint Sample.cpu_box).
Proof.
  cbv zeta.
  pose proof (run_standalone Sample.parse_conf Sample.std_from_str Sample.local_rank
                Sample.launch_fails Sample.cpu_box
                (Sample.options "1:1" "2" "static" "" true false false true)
                Sample.fresh eq_refl) as H.
  unfold Sample.run_with.
  destruct (run Sample.parse_conf Sample.std_from_str Sample.local_rank
              Sample.launch_fails Sample.cpu_box
              (Sample.options "1:1" "2" "static" "" true false false true)
              Sample.fresh)
    as [[o a'] p'].
  destruct H as (Hb & He & _). simpl. now rewrite Hb, He.
Defined.

Lemma get_rdzv_endpoint_static_fields_witness :
  Py.split ":" (get_rdzv_endpoint Sample.defaults) = ["127.0.0.1"; "29500"].
Proof.
  destruct (get_rdzv_endpoint_static_fields Sample.defaults eq_refl) as (H & _).
  rewrite H. reflexivity.
Defined.
